(** * The btrfs sysfs registry (fs/btrfs/sysfs.c)

    A shallow embedding of the kobject glue of fs/btrfs/sysfs.c: the
    attribute dispatchers, node creation and destruction, the static
    bootstrap of the three top-level directories and the per-device entry
    points, together with the statements the design document makes about
    them. *)

From stdpp Require Import base numbers option list strings gmap.

Local Open Scope Z_scope.

(** ** Constants of the kernel headers

    The errno values of include/uapi/asm-generic/errno-base.h, which is not
    among the sources.  The statements below need them only to be nonzero. *)

Definition EIO : Z := 5.
Definition ENOMEM : Z := 12.
Definition EINVAL : Z := 22.

(** ** Data model *)

(** Addresses of allocated objects.  [struct kobject kobj] is the first
    member of [struct btrfs_kobject], so both have the same address and a
    null [struct btrfs_kobject *] yields a null [&p->kobj]; a pointer that
    may be null is an [option kptr]. *)
Abbreviation kptr := positive (only parsing).

(** A callback pointer is the symbol it points to; null is [None]. *)
Abbreviation fnptr := string (only parsing).

(** [struct attribute]: the fields [__ATTR] fills in. *)
Record attribute : Type := Attribute {
  attr_name : string;
  attr_mode : Z
}.

(** [struct btrfs_kobject_attr]. *)
Record btrfs_kobject_attr : Type := BtrfsKobjectAttr {
  attr : attribute;
  show : option fnptr;
  store : option fnptr
}.

(** The one [struct sysfs_ops] table and the one release function of the
    file, as the values a [struct kobj_type] can point to. *)
Inductive sysfs_ops_ref : Type := btrfs_sysfs_ops.
Inductive release_ref : Type := btrfs_kobject_release_fn.

(** [struct kobj_type]; [default_attrs] is the null-terminated array. *)
Record kobj_type : Type := KobjType {
  sysfs_ops : sysfs_ops_ref;
  release : release_ref;
  default_attrs : list btrfs_kobject_attr
}.

(** A [struct kobj_type *].  It is null, or it points to an object that is
    alive and holds [t] (a static declaration, or the parameter [ktype] of a
    call of [btrfs_kobject_create] that is still running), or it points to
    such a parameter after its call has returned, where nothing can be read
    any more. *)
Inductive ktype_ptr : Type :=
| KtNull
| KtLive (t : kobj_type)
| KtDead.

(** The fields of [struct kobject] the file relies on.  [k_kset] tells whether
    [kobj.kset] points to [btrfs_kset] (the only kset there is) or is null. *)
Record kobject : Type := Kobject {
  k_name : string;
  k_kref : Z;
  k_parent : option kptr;
  k_kset : bool;
  k_ktype : ktype_ptr;
  k_state_in_sysfs : bool
}.

(** [struct btrfs_kobject { struct kobject kobj; void *ptr; }]. *)
Record btrfs_kobject : Type := BtrfsKobject {
  kobj : kobject;
  ptr : Z
}.

(** Memory as the C code sees it: the allocated objects and the file's
    static variables.  [btrfs_kset] is null or the registered kset, given by
    the list of its members. *)
Record kmem : Type := Kmem {
  heap : gmap kptr btrfs_kobject;
  btrfs_kset : option (list kptr);
  btrfs_devices : option kptr;
  btrfs_health : option kptr;
  btrfs_info : option kptr
}.

(** What happened, newest first.  The C code cannot read this log. *)
Inductive event : Type :=
| EvAdd (p : kptr) (name : string) (r : Z)
| EvDel (p : kptr)
| EvRelease (p : kptr)
| EvShow (f : fnptr) (p : kptr)
| EvStore (f : fnptr) (p : kptr).

Global Instance event_eq_dec : EqDecision event.
Proof. solve_decision. Defined.

Record sys : Type := Sys {
  mem : kmem;
  trace : list event
}.

(** The collaborators outside the file: the allocator, the renderer behind
    [kobject_init_and_add], kset registration, and the code behind the
    attribute callbacks.  A callback returns the [ssize_t] (a byte count or a
    negative errno), the buffer for [show], and the memory it leaves. *)
Record env : Type := Env {
  kzalloc_fails : kmem → bool;
  sysfs_create_dir : kmem → kptr → Z;
  kset_create_fails : kmem → bool;
  call_show : fnptr → kptr → btrfs_kobject_attr → string → kmem →
              option ((Z * string) * kmem);
  call_store : fnptr → kptr → btrfs_kobject_attr → string → Z → kmem →
               option (Z * kmem)
}.

(** ** State and undefined behaviour

    A computation threads [sys] and has no result where C has none (a load
    through a dangling pointer, a reference count driven below zero). *)

Definition M (A : Type) : Type := sys → option (A * sys).

Global Instance M_ret : MRet M := λ A a s, Some (a, s).
Global Instance M_bind : MBind M := λ A B k c s,
  match c s with
  | Some (a, s') => k a s'
  | None => None
  end.

Definition undef {A : Type} : M A := λ _, None.
Definition get_mem : M kmem := λ s, Some (mem s, s).
Definition put_mem (m : kmem) : M unit := λ s, Some (tt, Sys m (trace s)).
Definition emit (e : event) : M unit := λ s, Some (tt, Sys (mem s) (e :: trace s)).

Definition set_heap (h : gmap kptr btrfs_kobject) (m : kmem) : kmem :=
  Kmem h (btrfs_kset m) (btrfs_devices m) (btrfs_health m) (btrfs_info m).
Definition set_btrfs_kset (k : option (list kptr)) (m : kmem) : kmem :=
  Kmem (heap m) k (btrfs_devices m) (btrfs_health m) (btrfs_info m).
Definition set_btrfs_devices (p : option kptr) (m : kmem) : kmem :=
  Kmem (heap m) (btrfs_kset m) p (btrfs_health m) (btrfs_info m).
Definition set_btrfs_health (p : option kptr) (m : kmem) : kmem :=
  Kmem (heap m) (btrfs_kset m) (btrfs_devices m) p (btrfs_info m).
Definition set_btrfs_info (p : option kptr) (m : kmem) : kmem :=
  Kmem (heap m) (btrfs_kset m) (btrfs_devices m) (btrfs_health m) p.

Definition modify_mem (f : kmem → kmem) : M unit :=
  m ← get_mem; put_mem (f m).

(** [*p] and [*p = o]. *)
Definition load (p : kptr) : M btrfs_kobject := λ s,
  match heap (mem s) !! p with
  | Some o => Some (o, s)
  | None => None
  end.
Definition write (p : kptr) (o : btrfs_kobject) : M unit :=
  modify_mem (λ m, set_heap (<[p := o]> (heap m)) m).

(** Assignments to single fields of [p->kobj]. *)
Definition set_kobj (k : kobject) (o : btrfs_kobject) : btrfs_kobject :=
  BtrfsKobject k (ptr o).
Definition with_kref (c : Z) (o : btrfs_kobject) : btrfs_kobject :=
  set_kobj (Kobject (k_name (kobj o)) c (k_parent (kobj o)) (k_kset (kobj o))
                    (k_ktype (kobj o)) (k_state_in_sysfs (kobj o))) o.
Definition with_parent (q : option kptr) (o : btrfs_kobject) : btrfs_kobject :=
  set_kobj (Kobject (k_name (kobj o)) (k_kref (kobj o)) q (k_kset (kobj o))
                    (k_ktype (kobj o)) (k_state_in_sysfs (kobj o))) o.
Definition with_kset (b : bool) (o : btrfs_kobject) : btrfs_kobject :=
  set_kobj (Kobject (k_name (kobj o)) (k_kref (kobj o)) (k_parent (kobj o)) b
                    (k_ktype (kobj o)) (k_state_in_sysfs (kobj o))) o.
Definition with_state_in_sysfs (b : bool) (o : btrfs_kobject) : btrfs_kobject :=
  set_kobj (Kobject (k_name (kobj o)) (k_kref (kobj o)) (k_parent (kobj o))
                    (k_kset (kobj o)) (k_ktype (kobj o)) b) o.
Definition with_ktype (t : ktype_ptr) (o : btrfs_kobject) : btrfs_kobject :=
  set_kobj (Kobject (k_name (kobj o)) (k_kref (kobj o)) (k_parent (kobj o))
                    (k_kset (kobj o)) t (k_state_in_sysfs (kobj o))) o.

(** ** The allocator *)

(** A zeroed [struct btrfs_kobject]. *)
Definition zeroed : btrfs_kobject :=
  BtrfsKobject (Kobject "" 0 None false KtNull false) 0.

(** [kzalloc] with [GFP_USER]: null, or the address of a
    zeroed block that is not in use. *)
Definition kzalloc (E : env) : M (option kptr) :=
  m ← get_mem;
  if kzalloc_fails E m then mret None
  else
    let p := fresh (dom (heap m)) in
    write p zeroed;; mret (Some p).

Definition kfree (p : kptr) : M unit :=
  modify_mem (λ m, set_heap (delete p (heap m)) m).

(** ** The kobject layer *)

(** [container_of(x, struct btrfs_kobject, kobj)]: [kobj] is at offset 0. *)
Definition to_btrfs_kobject (x : kptr) : kptr := x.

(** [btrfs_kobject_release] (sysfs.c, lines 128-134); the log entry marks
    that the callback ran. *)
Definition btrfs_kobject_release (kobj : kptr) : M unit :=
  emit (EvRelease kobj);;
  let tmp_kobj := to_btrfs_kobject kobj in
  kfree tmp_kobj.

(** The call [t->release(kobj)] through a [struct kobj_type]. *)
Definition call_release (r : release_ref) (kobj : kptr) : M unit :=
  match r with
  | btrfs_kobject_release_fn => btrfs_kobject_release kobj
  end.

Definition kset_join (p : kptr) (m : kmem) : kmem :=
  match btrfs_kset m with
  | Some l => set_btrfs_kset (Some (p :: l)) m
  | None => m
  end.

Definition kset_leave (p : kptr) (m : kmem) : kmem :=
  match btrfs_kset m with
  | Some l => set_btrfs_kset (Some (filter (λ q, q ≠ p) l)) m
  | None => m
  end.

(** The top-level nodes ([Registry.roots]) and the children of a node: the
    nodes whose parent link points to it. *)
Definition roots (m : kmem) : list kptr := default [] (btrfs_kset m).

Definition is_child_of (p : kptr) (o : btrfs_kobject) : bool :=
  bool_decide (k_parent (kobj o) = Some p).

Definition children (m : kmem) (p : kptr) : gset kptr :=
  dom (filter (λ kv, is_child_of p kv.2 = true) (heap m)).

(** The node as [kobject_init] and the naming and linking of [kobject_add]
    leave it: one reference, the pointer to its type, its name and its
    parent.  The type is alive while [kobject_init_and_add] runs. *)
Definition init_kobj (name : string) (t : kobj_type) (parent : option kptr)
    (o : btrfs_kobject) : btrfs_kobject :=
  set_kobj (Kobject name 1 parent (k_kset (kobj o)) (KtLive t) false) o.

(** A pointer that is dereferenced when it is not null. *)
Definition check_live (k : option kptr) : M unit :=
  match k with
  | Some q => _ ← load q; mret tt
  | None => mret tt
  end.

(** Modelled from the spec: [kobject_init_and_add] of lib/kobject.c, which is
    not among the sources.  Section 4.2: create "constructs a Node with
    refcount = 1, ... parent = given", "if parent is none, inserts into
    Registry.roots; otherwise inserts into parent.children" and "publishes
    the node to the external renderer".  The node joins the roots through its
    [kset], which is how the caller asks for it.  The renderer's answer is
    returned; undoing a failed publish is left to the caller's [kobject_put].
    The spec has no null handles: a null [kobj] is refused with [-EINVAL], as
    the kernel does. *)
Definition kobject_init_and_add (E : env) (k : option kptr) (t : kobj_type)
    (parent : option kptr) (name : string) : M Z :=
  match k with
  | None => mret (- EINVAL)
  | Some p =>
    o ← load p;
    check_live parent;;
    write p (init_kobj name t parent o);;
    (if k_kset (kobj o) && bool_decide (parent = None)
     then modify_mem (kset_join p) else mret tt);;
    m ← get_mem;
    let r := sysfs_create_dir E m p in
    emit (EvAdd p name r);;
    if bool_decide (r = 0) then
      write p (with_state_in_sysfs true (init_kobj name t parent o));;
      mret 0
    else mret r
  end.

Definition detach_from (p : kptr) (o : btrfs_kobject) : btrfs_kobject :=
  if is_child_of p o then with_parent None o else o.

(** Modelled from the spec: the work [kobject_put] of lib/kobject.c does when
    the count reaches zero.  Section 4.2: "unpublishes from the external
    renderer, removes from parent's children (or roots), invokes
    NodeType.release(node) exactly once"; "children lose their parent link
    (become detached) but are not transitively destroyed".  The callback is
    read through the node's type pointer: with a null pointer there is none
    to call, and reading through a pointer to a dead parameter is
    undefined. *)
Definition kobject_cleanup (p : kptr) (o : btrfs_kobject) : M unit :=
  (if k_state_in_sysfs (kobj o) then emit (EvDel p) else mret tt);;
  write p (with_state_in_sysfs false (with_parent None (with_kref 0 o)));;
  modify_mem (kset_leave p);;
  modify_mem (λ m, set_heap (detach_from p <$> heap m) m);;
  match k_ktype (kobj o) with
  | KtLive t => call_release (release t) p
  | KtNull => mret tt
  | KtDead => undef
  end.

(** Modelled from the spec: [kobject_get] of lib/kobject.c.  Section 3: the
    count is "incremented on each additional handle acquired"; once a node is
    destroyed "no further operations [are] valid". *)
Definition kobject_get (k : option kptr) : M unit :=
  match k with
  | None => mret tt
  | Some p =>
    o ← load p;
    if bool_decide (k_kref (kobj o) ≤ 0) then undef
    else write p (with_kref (k_kref (kobj o) + 1) o)
  end.

(** Modelled from the spec: [kobject_put] of lib/kobject.c.  Section 4.2:
    destroy "decrements refcount by one"; "if refcount reaches zero" the node
    is torn down, otherwise it "remains live"; "refcount underflow is an
    error".  The spec has no null handles: a null pointer is ignored, as the
    kernel does. *)
Definition kobject_put (k : option kptr) : M unit :=
  match k with
  | None => mret tt
  | Some p =>
    o ← load p;
    if bool_decide (k_kref (kobj o) ≤ 0) then undef
    else if bool_decide (k_kref (kobj o) - 1 = 0) then kobject_cleanup p o
    else write p (with_kref (k_kref (kobj o) - 1) o)
  end.

(** Modelled from the spec: [kset_create_and_add] of lib/kobject.c.
    Section 2: the Registry is "the root container (the
    'kset' analogue)" that "owns the top-level collection of root Nodes". *)
Definition kset_create_and_add (E : env) : M (option (list kptr)) :=
  m ← get_mem;
  if kset_create_fails E m then mret None else mret (Some []).

(** Modelled from the spec: [kset_unregister] of lib/kobject.c, the end of
    the Registry's life (section 9: it is "torn down exactly once"). *)
Definition kset_unregister : M unit :=
  modify_mem (set_btrfs_kset None).

(** ** The attribute dispatchers (sysfs.c, lines 76-104) *)

(** A call through a callback pointer: the callback runs on the memory, and
    the call is logged. *)
Definition invoke {A : Type} (e : event) (cb : kmem → option (A * kmem)) : M A :=
  λ s, match cb (mem s) with
       | Some (a, m') => Some (a, Sys m' (e :: trace s))
       | None => None
       end.

(** [btrfs_kobject_attr_store]; [a] is [to_btrfs_kobject_attr(attr)]. *)
Definition btrfs_kobject_attr_store (E : env) (kobj : kptr)
    (a : btrfs_kobject_attr) (buf : string) (len : Z) : M Z :=
  let btrfs_attr := a in
  let btrfs_kobj := to_btrfs_kobject kobj in
  match store btrfs_attr with
  | None => mret (- EIO)
  | Some f =>
    invoke (EvStore f btrfs_kobj) (call_store E f btrfs_kobj btrfs_attr buf len)
  end.

(** [btrfs_kobject_attr_show]; the result carries the buffer. *)
Definition btrfs_kobject_attr_show (E : env) (kobj : kptr)
    (a : btrfs_kobject_attr) (buf : string) : M (Z * string) :=
  let btrfs_attr := a in
  let btrfs_kobj := to_btrfs_kobject kobj in
  match show btrfs_attr with
  | None => mret (- EIO, buf)
  | Some f =>
    invoke (EvShow f btrfs_kobj) (call_show E f btrfs_kobj btrfs_attr buf)
  end.

(** ** The static declarations (sysfs.c, lines 174-298) *)

(** Modelled from the spec: the macro [__ATTR] of include/linux/sysfs.h, which
    is not among the sources.  Section 3: a descriptor is a name, an access
    mode and the pair of optional callbacks [show] and [store]; the macro is
    the initializer that fills them in. *)
Definition __ATTR (_name : string) (_mode : Z) (_show _store : option fnptr)
    : btrfs_kobject_attr :=
  BtrfsKobjectAttr (Attribute _name _mode) _show _store.

(** [BTRFS_ATTR(_name,_mode,_show,_store)].  In C the macro also declares the
    variable [btrfs_attr_<_name>], so one file cannot declare two descriptors
    of one name; an attribute array can still list a descriptor twice. *)
Definition BTRFS_ATTR (_name : string) (_mode : Z) (_show _store : option fnptr)
    : btrfs_kobject_attr :=
  __ATTR _name _mode _show _store.

(** The octal modes 0444 and 0666. *)
Definition S_0444 : Z := 292.
Definition S_0666 : Z := 438.

Definition btrfs_attr_num_devices : btrfs_kobject_attr :=
  BTRFS_ATTR "num_devices" S_0444 None None.
Definition btrfs_info_default_attrs : list btrfs_kobject_attr :=
  [btrfs_attr_num_devices].
Definition btrfs_ktype_info : kobj_type :=
  KobjType btrfs_sysfs_ops btrfs_kobject_release_fn btrfs_info_default_attrs.

Definition btrfs_attr_dummy : btrfs_kobject_attr :=
  BTRFS_ATTR "dummy" S_0444 None None.
Definition btrfs_health_default_attrs : list btrfs_kobject_attr :=
  [btrfs_attr_dummy].
Definition btrfs_ktype_health : kobj_type :=
  KobjType btrfs_sysfs_ops btrfs_kobject_release_fn btrfs_health_default_attrs.

Definition btrfs_attr_dummy1 : btrfs_kobject_attr :=
  BTRFS_ATTR "dummy1" S_0444 None None.
Definition btrfs_devices_default_attrs : list btrfs_kobject_attr :=
  [btrfs_attr_dummy1].
Definition btrfs_ktype_devices : kobj_type :=
  KobjType btrfs_sysfs_ops btrfs_kobject_release_fn btrfs_devices_default_attrs.

Definition btrfs_attr_label : btrfs_kobject_attr :=
  BTRFS_ATTR "label" S_0444 None None.
Definition btrfs_device_default_attrs : list btrfs_kobject_attr :=
  [btrfs_attr_label].
Definition btrfs_ktype_device : kobj_type :=
  KobjType btrfs_sysfs_ops btrfs_kobject_release_fn btrfs_device_default_attrs.

(** ** Creation and destruction (sysfs.c, lines 304-345) *)

(** [btrfs_kobj->kobj.kset = btrfs_kset]. *)
Definition assign_kset (p : kptr) : M unit :=
  o ← load p;
  m ← get_mem;
  write p (with_kset (bool_decide (is_Some (btrfs_kset m))) o).

(** The return of a call of [btrfs_kobject_create] whose node at [p] is kept.
    The function receives [ktype] by value and hands [&ktype], the address of
    its own parameter, to [kobject_init_and_add], which stores it in the
    node.  The parameter dies with the call, so from the return on the node's
    type pointer, the only copy of that address, dangles. *)
Definition end_of_call (p : kptr) : M unit :=
  o ← load p;
  write p (with_ktype KtDead o).

(** [btrfs_kobject_create].  The [printk] has no effect on the state.  While
    the call runs, [&ktype] points to the live parameter; on the failure path
    the node is released and freed before the return. *)
Definition btrfs_kobject_create (E : env) (name : string) (ktype : kobj_type)
    (btrfs_parent : option kptr) : M (option kptr) :=
  btrfs_kobj ← kzalloc E;
  match btrfs_kobj with
  | None => mret None
  | Some p =>
    parent_kobj ← match btrfs_parent with
                  | Some q => mret (Some q)
                  | None => assign_kset p;; mret None
                  end;
    ret ← kobject_init_and_add E (Some p) ktype parent_kobj name;
    if bool_decide (ret ≠ 0) then
      kobject_put (Some p);; mret None
    else
      end_of_call p;; mret (Some p)
  end.

(** [btrfs_kobject_destroy]. *)
Definition btrfs_kobject_destroy (btrfs_kobj : option kptr) : M unit :=
  kobject_put btrfs_kobj.

(** ** Bootstrap (sysfs.c, lines 355-385) *)

(** The three error labels of [btrfs_static_init_sysfs], each falling
    through to the next. *)
Definition btrfs_devices_error : M Z := mret (- EINVAL).

Definition btrfs_health_error : M Z :=
  m ← get_mem;
  btrfs_kobject_destroy (btrfs_health m);;
  btrfs_devices_error.

Definition btrfs_info_error : M Z :=
  m ← get_mem;
  btrfs_kobject_destroy (btrfs_info m);;
  btrfs_health_error.

(** [btrfs_static_init_sysfs]. *)
Definition btrfs_static_init_sysfs (E : env) : M Z :=
  d ← btrfs_kobject_create E "devices" btrfs_ktype_devices None;
  modify_mem (set_btrfs_devices d);;
  if bool_decide (d = None) then btrfs_devices_error
  else
    h ← btrfs_kobject_create E "health" btrfs_ktype_health None;
    modify_mem (set_btrfs_health h);;
    if bool_decide (h = None) then btrfs_health_error
    else
      i ← btrfs_kobject_create E "info" btrfs_ktype_info None;
      modify_mem (set_btrfs_info i);;
      if bool_decide (i = None) then btrfs_info_error
      else mret 0.

(** [btrfs_init_sysfs]. *)
Definition btrfs_init_sysfs (E : env) : M Z :=
  k ← kset_create_and_add E;
  modify_mem (set_btrfs_kset k);;
  if bool_decide (k = None) then mret (- ENOMEM)
  else btrfs_static_init_sysfs E.

(** ** Devices and teardown (sysfs.c, lines 391-443) *)

(** [btrfs_create_device]: the value of [kobject_init_and_add] is dropped.
    [&btrfs_devices->kobj] is null when [btrfs_devices] is. *)
Definition btrfs_create_device (E : env) (super_kobj : option kptr) (label : string)
    : M Z :=
  m ← get_mem;
  _ ← kobject_init_and_add E super_kobj btrfs_ktype_device (btrfs_devices m) label;
  mret 0.

(** [btrfs_kill_device]. *)
Definition btrfs_kill_device (kobj : option kptr) : M Z :=
  kobject_put kobj;; mret 0.

(** [btrfs_exit_sysfs]. *)
Definition btrfs_exit_sysfs : M unit :=
  m ← get_mem;
  btrfs_kobject_destroy (btrfs_devices m);;
  btrfs_kobject_destroy (btrfs_health m);;
  btrfs_kobject_destroy (btrfs_info m);;
  kset_unregister.

(** ** Observations on a run *)

(** How often the release callback ran on [p], and how many attribute
    callbacks ran. *)
Definition releases (p : kptr) (t : list event) : nat :=
  length (filter (λ e, e = EvRelease p) t).

Definition is_callback (e : event) : bool :=
  match e with
  | EvShow _ _ | EvStore _ _ => true
  | _ => false
  end.

Definition callbacks (t : list event) : nat :=
  length (filter (λ e, is_callback e = true) t).

(** The outcome of exactly one call of a callback: its value and the memory
    it leaves, with the call logged. *)
Definition one_call {A : Type} (e : event) (r : option (A * kmem)) (t : list event)
    : option (A * sys) :=
  match r with
  | Some (a, m') => Some (a, Sys m' (e :: t))
  | None => None
  end.

(** A concrete setting: nothing allocated, then the kset registered. *)
Definition boot : sys := Sys (Kmem ∅ None None None None) [].
Definition registered : sys := Sys (Kmem ∅ (Some []) None None None) [].

Definition name_at (m : kmem) (p : kptr) : string :=
  from_option (λ o, k_name (kobj o)) "" (heap m !! p).

(** An environment whose renderer refuses the node called [bad] with
    [-EEXIST], and whose only callbacks are the two examples in the comment
    above [BTRFS_ATTR]: [btrfs_attr_show] prints the payload slot and
    [btrfs_attr_store] overwrites it with the length written. *)
Definition example_show (f : fnptr) (k : kptr) (a : btrfs_kobject_attr)
    (buf : string) (m : kmem) : option ((Z * string) * kmem) :=
  if bool_decide (f = "btrfs_attr_show")
  then o ← heap m !! k; Some ((1, String (Ascii.ascii_of_nat (Z.to_nat (48 + ptr o))) ""), m)
  else None.

Definition example_store (f : fnptr) (k : kptr) (a : btrfs_kobject_attr)
    (buf : string) (len : Z) (m : kmem) : option (Z * kmem) :=
  if bool_decide (f = "btrfs_attr_store")
  then o ← heap m !! k;
       Some (len, set_heap (<[k := BtrfsKobject (kobj o) len]> (heap m)) m)
  else None.

Definition refusing (bad : string) : env :=
  Env (λ _, false)
      (λ m p, if bool_decide (name_at m p = bad) then -17 else 0)
      (λ _, false) example_show example_store.

(** ** The memory the kobject layer leaves, in closed form *)

(** After the node was initialised and linked, before the renderer is asked. *)
Definition linked (p : kptr) (name : string) (t : kobj_type) (parent : option kptr)
    (o : btrfs_kobject) (m : kmem) : kmem :=
  let m1 := set_heap (<[p := init_kobj name t parent o]> (heap m)) m in
  if k_kset (kobj o) && bool_decide (parent = None) then kset_join p m1 else m1.

(** After the renderer accepted the node. *)
Definition published (p : kptr) (name : string) (t : kobj_type)
    (parent : option kptr) (o : btrfs_kobject) (m : kmem) : kmem :=
  let m2 := linked p name t parent o m in
  set_heap (<[p := with_state_in_sysfs true (init_kobj name t parent o)]> (heap m2)) m2.

(** As [btrfs_kobject_create] returns the node: published, its type pointer
    dangling. *)
Definition returned (p : kptr) (name : string) (t : kobj_type)
    (parent : option kptr) (o : btrfs_kobject) (m : kmem) : kmem :=
  let m3 := published p name t parent o m in
  set_heap (<[p := with_ktype KtDead
                     (with_state_in_sysfs true (init_kobj name t parent o))]>
              (heap m3)) m3.

(** After the last reference to [p] was dropped, up to the release call. *)
Definition unlinked (p : kptr) (o : btrfs_kobject) (m : kmem) : kmem :=
  let m1 :=
    kset_leave p
      (set_heap (<[p := with_state_in_sysfs false (with_parent None (with_kref 0 o))]>
                   (heap m)) m) in
  set_heap (detach_from p <$> heap m1) m1.

(** After [btrfs_kobject_release] freed it. *)
Definition torn_down (p : kptr) (o : btrfs_kobject) (m : kmem) : kmem :=
  let m1 := unlinked p o m in
  set_heap (delete p (heap m1)) m1.

(** The block [kzalloc] returned, after [btrfs_kobject_create] chose between
    the parent and the kset. *)
Definition fresh_obj (btrfs_parent : option kptr) (m : kmem) : btrfs_kobject :=
  match btrfs_parent with
  | Some _ => zeroed
  | None => with_kset (bool_decide (is_Some (btrfs_kset m))) zeroed
  end.

Definition allocated (p : kptr) (btrfs_parent : option kptr) (m : kmem) : kmem :=
  set_heap (<[p := fresh_obj btrfs_parent m]> (heap m)) m.

(** The renderer's answer to the publish request that
    [btrfs_kobject_create E name t btrfs_parent] issues when started in [s]
    with memory to allocate. *)
Definition publish_answer (E : env) (name : string) (t : kobj_type)
    (btrfs_parent : option kptr) (s : sys) : Z :=
  let p := fresh (dom (heap (mem s))) in
  sysfs_create_dir E
    (linked p name t btrfs_parent (fresh_obj btrfs_parent (mem s))
            (allocated p btrfs_parent (mem s))) p.

(** A parent handle that is null or points to an allocated node. *)
Definition parent_ok (btrfs_parent : option kptr) (m : kmem) : Prop :=
  ∀ q, btrfs_parent = Some q → is_Some (heap m !! q).

(** The state a run ends in ([boot] if it has none). *)
Definition state_after {A : Type} (r : option (A * sys)) : sys :=
  from_option snd boot r.

(** The directory [devices] alone, and a device [sda] under it. *)
Definition with_devices : sys :=
  state_after (btrfs_kobject_create (refusing "") "devices" btrfs_ktype_devices
                                    None registered).
Definition with_sda : sys :=
  state_after (btrfs_kobject_create (refusing "") "sda" btrfs_ktype_device
                                    (Some 1%positive) with_devices).

(** ** The declaration rules of the design document

    Section 4.1 of the design document, in its words: a declaration is
    rejected "if two attributes share a name, or if a ReadWrite attribute
    lacks a store callback".  An attribute is ReadWrite when its mode has a
    write bit (0222). *)
Definition S_IWUGO : Z := 146.

Definition spec_read_write (a : btrfs_kobject_attr) : bool :=
  negb (Z.land (attr_mode (attr a)) S_IWUGO =? 0).

Definition spec_valid_node_type (t : kobj_type) : bool :=
  bool_decide (NoDup (map (λ a, attr_name (attr a)) (default_attrs t)))
  && forallb (λ a, implb (spec_read_write a) (bool_decide (is_Some (store a))))
             (default_attrs t).

(** A type the rules reject: its attribute [x] is writable (0666) and has no
    [store]. *)
Definition btrfs_attr_x : btrfs_kobject_attr :=
  BTRFS_ATTR "x" S_0666 None None.
Definition btrfs_ktype_malformed : kobj_type :=
  KobjType btrfs_sysfs_ops btrfs_kobject_release_fn [btrfs_attr_x].

(** A type the rules reject for listing one name twice. *)
Definition btrfs_ktype_repeating : kobj_type :=
  KobjType btrfs_sysfs_ops btrfs_kobject_release_fn
           [btrfs_attr_label; btrfs_attr_label].

Definition with_malformed : sys :=
  state_after (btrfs_kobject_create (refusing "") "odd" btrfs_ktype_malformed
                                    None registered).

Definition with_refused : sys :=
  state_after (btrfs_kobject_create (refusing "health") "health" btrfs_ktype_health
                                    None registered).

(** ** Sequences of reference operations on one node *)

(** Taking a further handle and giving one back. *)
Inductive refop : Type := Acquire | Drop.

Definition run_op (p : kptr) (op : refop) : M unit :=
  match op with
  | Acquire => kobject_get (Some p)
  | Drop => btrfs_kobject_destroy (Some p)
  end.

Fixpoint run_ops (p : kptr) (ops : list refop) : M unit :=
  match ops with
  | [] => mret tt
  | op :: rest => run_op p op;; run_ops p rest
  end.

Fixpoint acquires (ops : list refop) : Z :=
  match ops with
  | [] => 0
  | Acquire :: rest => 1 + acquires rest
  | Drop :: rest => acquires rest
  end.

Fixpoint drops (ops : list refop) : Z :=
  match ops with
  | [] => 0
  | Acquire :: rest => drops rest
  | Drop :: rest => 1 + drops rest
  end.

(** Starting from [n] references, no [Drop] of the sequence is the one that
    gives the last reference back. *)
Fixpoint keeps_reference (n : Z) (ops : list refop) : bool :=
  match ops with
  | [] => true
  | Acquire :: rest => keeps_reference (n + 1) rest
  | Drop :: rest => bool_decide (1 < n) && keeps_reference (n - 1) rest
  end.

(** [devices] after a further handle was taken and given back. *)
Definition with_devices_held : sys :=
  state_after (run_ops 1%positive [Acquire; Drop] with_devices).

(** ** Postconditions of runs *)

(** Whenever [c] runs from a state satisfying [P] and returns, the value and
    the final state satisfy [Q]. *)
Definition hoare {A : Type} (P : sys → Prop) (c : M A) (Q : A → sys → Prop) : Prop :=
  ∀ s a s', P s → c s = Some (a, s') → Q a s'.

(** The kset is registered. *)
Definition kset_registered (s : sys) : Prop := is_Some (btrfs_kset (mem s)).

(** The tree after a bootstrap in which the renderer refuses [sda], a block
    of the caller's in it, and the attempt to add that block as device
    [sda]. *)
Definition with_tree : sys :=
  state_after (btrfs_init_sysfs (refusing "sda") boot).
Definition with_block : sys :=
  state_after (kzalloc (refusing "sda") with_tree).
Definition with_unpublished_sda : sys :=
  state_after (btrfs_create_device (refusing "sda") (Some 4%positive) "sda" with_block).


(** The state in which a bootstrap ends when the renderer refuses
    [health]. *)
Definition after_health_refused : sys :=
  state_after (btrfs_static_init_sysfs (refusing "health") registered).
Definition after_init_health_refused : sys :=
  state_after (btrfs_init_sysfs (refusing "health") boot).

(** ** Nodes that survive a run *)

(** [p] is allocated and holds at least one reference. *)
Definition live (p : kptr) (s : sys) : Prop :=
  ∃ o, heap (mem s) !! p = Some o ∧ 0 < k_kref (kobj o).

(** From [s] to [s'] the node [q] stays live, stays a root if it was one, and
    its release callback does not run. *)
Definition kept (q : kptr) (s s' : sys) : Prop :=
  live q s'
  ∧ (q ∈ roots (mem s) → q ∈ roots (mem s'))
  ∧ releases q (trace s') = releases q (trace s).

(** The three static pointers are as before. *)
Definition same_globals (s s' : sys) : Prop :=
  btrfs_devices (mem s') = btrfs_devices (mem s)
  ∧ btrfs_health (mem s') = btrfs_health (mem s)
  ∧ btrfs_info (mem s') = btrfs_info (mem s).

(** ** Further observations on a run *)

(** The allocated blocks. *)
Definition blocks (s : sys) : gset kptr := dom (heap (mem s)).

(** An assignment to a static variable. *)
Definition set_global (f : kmem → kmem) (s : sys) : sys :=
  Sys (f (mem s)) (trace s).

(** A top-level node as a successful [btrfs_kobject_create] leaves it when
    the kset is registered: the type pointer is the address of a parameter of
    the call that has returned. *)
Definition root_node (name : string) : btrfs_kobject :=
  BtrfsKobject (Kobject name 1 None true KtDead true) 0.

(** At [p] sits a published top-level node called [name], with one reference
    and the zero payload. *)
Definition root_at (s : sys) (p : kptr) (name : string) : Prop :=
  ∃ o, heap (mem s) !! p = Some o
       ∧ k_name (kobj o) = name ∧ k_kref (kobj o) = 1 ∧ k_parent (kobj o) = None
       ∧ k_state_in_sysfs (kobj o) = true ∧ ptr o = 0.

(** An environment in which [kset_create_and_add] fails. *)
Definition kset_refusing : env :=
  Env (λ _, false) (λ _ _, 0) (λ _, true) example_show example_store.

(** What the renderer was asked to publish and what it answered, newest
    first. *)
Fixpoint publishes (t : list event) : list (string * Z) :=
  match t with
  | [] => []
  | EvAdd _ name r :: t' => (name, r) :: publishes t'
  | _ :: t' => publishes t'
  end.

(** The types declared in the file. *)
Definition declared_ktypes : list kobj_type :=
  [btrfs_ktype_info; btrfs_ktype_health; btrfs_ktype_devices; btrfs_ktype_device].

(** The tree after a bootstrap in which nothing fails. *)
Definition with_roots : sys :=
  state_after (btrfs_init_sysfs (refusing "") boot).

(** The refused device [sda] killed again. *)
Definition with_sda_killed : sys :=
  state_after (btrfs_kill_device (Some 4%positive) with_unpublished_sda).

(** * Properties *)

Ltac munfold :=
  unfold write, modify_mem, get_mem, put_mem, load, emit, invoke, undef,
    mbind, M_bind, mret, M_ret in *.

(** ** Dispatch *)

Lemma callbacks_cons (e : event) (t : list event) :
  callbacks (e :: t) = ((if is_callback e then 1 else 0) + callbacks t)%nat.
Proof.
  unfold callbacks. rewrite filter_cons.
  destruct (is_callback e); case_decide; simpl; congruence.
Qed.

Lemma show_dispatch (E : env) (kobj : kptr) (a : btrfs_kobject_attr)
    (buf : string) (s : sys) :
  btrfs_kobject_attr_show E kobj a buf s =
  match show a with
  | None => Some ((- EIO, buf), s)
  | Some f => one_call (EvShow f kobj) (call_show E f kobj a buf (mem s)) (trace s)
  end.
Proof.
  unfold btrfs_kobject_attr_show, to_btrfs_kobject, one_call.
  destruct (show a); munfold; reflexivity.
Qed.

Lemma store_dispatch (E : env) (kobj : kptr) (a : btrfs_kobject_attr)
    (buf : string) (len : Z) (s : sys) :
  btrfs_kobject_attr_store E kobj a buf len s =
  match store a with
  | None => Some (- EIO, s)
  | Some f =>
    one_call (EvStore f kobj) (call_store E f kobj a buf len (mem s)) (trace s)
  end.
Proof.
  unfold btrfs_kobject_attr_store, to_btrfs_kobject, one_call.
  destruct (store a); munfold; reflexivity.
Qed.

Lemma one_call_callbacks {A : Type} (e : event) (r : option (A * kmem))
    (t : list event) (a : A) (s' : sys) :
  one_call e r t = Some (a, s') →
  (callbacks (trace s') ≤ 1 + callbacks t)%nat.
Proof.
  unfold one_call. destruct r as [[a' m']|]; [|discriminate].
  intros [= _ <-]. simpl. rewrite callbacks_cons. destruct (is_callback e); lia.
Qed.

(** C6: a dispatch is the outcome of one call of the attribute's callback and
    nothing else.  A read returns what the single call of [show] returned,
    value and buffer, be it a byte count or a negative errno, and leaves the
    memory that call left; a write does the same with [store]; without a
    callback nothing is called.  Either way at most one callback runs: the
    log grows by at most one callback entry, so a failing callback is not
    called a second time. *)
Theorem dispatch_single_callback_verbatim (E : env) (kobj : kptr)
    (a : btrfs_kobject_attr) (buf : string) (len : Z) (s : sys) :
  btrfs_kobject_attr_show E kobj a buf s =
    match show a with
    | None => Some ((- EIO, buf), s)
    | Some f => one_call (EvShow f kobj) (call_show E f kobj a buf (mem s)) (trace s)
    end
  ∧ btrfs_kobject_attr_store E kobj a buf len s =
    match store a with
    | None => Some (- EIO, s)
    | Some f =>
      one_call (EvStore f kobj) (call_store E f kobj a buf len (mem s)) (trace s)
    end
  ∧ (∀ r s', btrfs_kobject_attr_show E kobj a buf s = Some (r, s') →
       (callbacks (trace s') ≤ 1 + callbacks (trace s))%nat)
  ∧ (∀ r s', btrfs_kobject_attr_store E kobj a buf len s = Some (r, s') →
       (callbacks (trace s') ≤ 1 + callbacks (trace s))%nat).
Proof.
  split; [apply show_dispatch|].
  split; [apply store_dispatch|].
  split; intros r s'.
  - rewrite show_dispatch. destruct (show a) as [f|].
    + apply one_call_callbacks.
    + intros [= _ <-]. lia.
  - rewrite store_dispatch. destruct (store a) as [f|].
    + apply one_call_callbacks.
    + intros [= _ <-]. lia.
Qed.

(** A node with payload 7 whose attribute has both example callbacks: the
    read yields the digit, the write stores the length, one call each. *)
Lemma dispatch_single_callback_verbatim_witness :
  let a := BTRFS_ATTR "dummy" S_0666 (Some "btrfs_attr_show") (Some "btrfs_attr_store") in
  let s := Sys (Kmem {[ 1%positive := BtrfsKobject (kobj zeroed) 7 ]} None None None None) [] in
  (∃ s', btrfs_kobject_attr_show (refusing "") 1%positive a "" s = Some ((1, "7"), s')
         ∧ (callbacks (trace s') ≤ 1 + callbacks (trace s))%nat)
  ∧ (∃ s', btrfs_kobject_attr_store (refusing "") 1%positive a "" 3 s = Some (3, s')
           ∧ (callbacks (trace s') ≤ 1 + callbacks (trace s))%nat).
Proof.
  intros a s.
  destruct (dispatch_single_callback_verbatim (refusing "") 1%positive a "" 3 s)
    as (Hr & Hw & Hrc & Hwc).
  split.
  - destruct (btrfs_kobject_attr_show (refusing "") 1%positive a "" s)
      as [[r s']|] eqn:Hrun; [|discriminate Hr].
    exists s'. split; [|exact (Hrc r s' eq_refl)].
    vm_compute in Hr. injection Hr as -> _. reflexivity.
  - destruct (btrfs_kobject_attr_store (refusing "") 1%positive a "" 3 s)
      as [[r s']|] eqn:Hrun; [|discriminate Hw].
    exists s'. split; [|exact (Hwc r s' eq_refl)].
    vm_compute in Hw. injection Hw as -> _. reflexivity.
Defined.

(** ** Missing callbacks *)

(** C3, as the code has it: a read of an attribute without [show] and a write
    of an attribute without [store] both fail with [-EIO], and either failure
    leaves the whole state, every node and payload included, as it was. *)
Theorem missing_callback_is_EIO (E : env) (kobj : kptr) (a : btrfs_kobject_attr)
    (buf : string) (len : Z) (s : sys) :
  (show a = None → btrfs_kobject_attr_show E kobj a buf s = Some ((- EIO, buf), s))
  ∧ (store a = None → btrfs_kobject_attr_store E kobj a buf len s = Some (- EIO, s)).
Proof.
  split; intros H.
  - rewrite show_dispatch, H. reflexivity.
  - rewrite store_dispatch, H. reflexivity.
Qed.

Lemma missing_callback_is_EIO_witness :
  show btrfs_attr_label = None ∧ store btrfs_attr_label = None
  ∧ btrfs_kobject_attr_show (refusing "") 1%positive btrfs_attr_label "" boot
    = Some ((-5, ""), boot)
  ∧ btrfs_kobject_attr_store (refusing "") 1%positive btrfs_attr_label "sda" 3 boot
    = Some (-5, boot).
Proof.
  destruct (missing_callback_is_EIO (refusing "") 1%positive btrfs_attr_label "" 3 boot)
    as [Hr _].
  destruct (missing_callback_is_EIO (refusing "") 1%positive btrfs_attr_label "sda" 3 boot)
    as [_ Hw].
  split; [reflexivity|]. split; [reflexivity|].
  split; [apply Hr | apply Hw]; reflexivity.
Defined.

(** C3 as stated fails: on [num_devices], which has neither callback, the read
    and the write fail with one and the same value, not with two distinct
    errors. *)
Lemma read_and_write_failures_coincide :
  ∃ e : Z,
    btrfs_kobject_attr_show (refusing "") 1%positive btrfs_attr_num_devices "" boot
      = Some ((e, ""), boot)
    ∧ btrfs_kobject_attr_store (refusing "") 1%positive btrfs_attr_num_devices "1" 1 boot
      = Some (e, boot).
Proof. exists (- EIO). split; reflexivity. Qed.

(** ** Running the kobject layer *)

Ltac conjuncts := repeat match goal with |- _ ∧ _ => split end.
Ltac fields :=
  cbn beta iota delta [mem trace heap btrfs_kset btrfs_devices btrfs_health
                       btrfs_info set_heap].
Ltac mred := munfold; fields.

Lemma heap_kset_join (p : kptr) (m : kmem) : heap (kset_join p m) = heap m.
Proof. unfold kset_join. destruct (btrfs_kset m); reflexivity. Qed.

Lemma heap_kset_leave (p : kptr) (m : kmem) : heap (kset_leave p m) = heap m.
Proof. unfold kset_leave. destruct (btrfs_kset m); reflexivity. Qed.

Lemma check_live_eq (k : option kptr) (s : sys) :
  (∀ q, k = Some q → is_Some (heap (mem s) !! q)) →
  check_live k s = Some (tt, s).
Proof.
  intros H. destruct k as [q|]; [|reflexivity].
  destruct (H q eq_refl) as [x Hx]. unfold check_live. mred. rewrite Hx. reflexivity.
Qed.

Lemma check_live_dangling (q : kptr) (s : sys) :
  heap (mem s) !! q = None → check_live (Some q) s = None.
Proof. intros H. unfold check_live. mred. rewrite H. reflexivity. Qed.

Lemma check_live_cases (k : option kptr) (s : sys) :
  check_live k s = Some (tt, s) ∨ check_live k s = None.
Proof.
  destruct k as [q|]; [|left; reflexivity].
  destruct (heap (mem s) !! q) as [x|] eqn:Hq.
  - left. apply check_live_eq. intros ? [= <-]. eauto.
  - right. apply check_live_dangling, Hq.
Qed.

Lemma kobject_init_and_add_eq (E : env) (p : kptr) (t : kobj_type)
    (parent : option kptr) (name : string) (s : sys) :
  kobject_init_and_add E (Some p) t parent name s =
  match heap (mem s) !! p, check_live parent s with
  | Some o, Some _ =>
    let m2 := linked p name t parent o (mem s) in
    let r := sysfs_create_dir E m2 p in
    Some (if bool_decide (r = 0)
          then (0, Sys (published p name t parent o (mem s)) (EvAdd p name r :: trace s))
          else (r, Sys m2 (EvAdd p name r :: trace s)))
  | _, _ => None
  end.
Proof.
  unfold kobject_init_and_add, published, linked. mred.
  destruct (heap (mem s) !! p) as [o|]; [|reflexivity].
  destruct (check_live_cases parent s) as [-> | ->]; [|reflexivity].
  destruct (k_kset (kobj o) && bool_decide (parent = None)); mred;
    case_bool_decide; mred; reflexivity.
Qed.

Lemma kobject_cleanup_eq (p : kptr) (o : btrfs_kobject) (s : sys) :
  kobject_cleanup p o s =
  let t1 := (if k_state_in_sysfs (kobj o) then [EvDel p] else []) ++ trace s in
  match k_ktype (kobj o) with
  | KtLive _ => Some (tt, Sys (torn_down p o (mem s)) (EvRelease p :: t1))
  | KtNull => Some (tt, Sys (unlinked p o (mem s)) t1)
  | KtDead => None
  end.
Proof.
  unfold kobject_cleanup, torn_down, unlinked, call_release, btrfs_kobject_release,
    kfree, to_btrfs_kobject.
  destruct (k_state_in_sysfs (kobj o)); destruct (k_ktype (kobj o)) as [|[ops []]|];
    mred; reflexivity.
Qed.

Lemma kobject_put_eq (p : kptr) (s : sys) :
  kobject_put (Some p) s =
  match heap (mem s) !! p with
  | None => None
  | Some o =>
    if bool_decide (k_kref (kobj o) ≤ 0) then None
    else if bool_decide (k_kref (kobj o) - 1 = 0) then kobject_cleanup p o s
    else Some (tt, Sys (set_heap (<[p := with_kref (k_kref (kobj o) - 1) o]>
                                    (heap (mem s))) (mem s)) (trace s))
  end.
Proof.
  unfold kobject_put. mred. destruct (heap (mem s) !! p) as [o|]; [|reflexivity].
  repeat case_bool_decide; reflexivity.
Qed.

Lemma kobject_get_eq (p : kptr) (s : sys) :
  kobject_get (Some p) s =
  match heap (mem s) !! p with
  | None => None
  | Some o =>
    if bool_decide (k_kref (kobj o) ≤ 0) then None
    else Some (tt, Sys (set_heap (<[p := with_kref (k_kref (kobj o) + 1) o]>
                                    (heap (mem s))) (mem s)) (trace s))
  end.
Proof.
  unfold kobject_get. mred. destruct (heap (mem s) !! p) as [o|]; [|reflexivity].
  case_bool_decide; reflexivity.
Qed.

Lemma kzalloc_eq (E : env) (s : sys) :
  kzalloc E s =
  Some (if kzalloc_fails E (mem s) then (None, s)
        else let p := fresh (dom (heap (mem s))) in
             (Some p, Sys (set_heap (<[p := zeroed]> (heap (mem s))) (mem s)) (trace s))).
Proof. unfold kzalloc. mred. destruct (kzalloc_fails E (mem s)); reflexivity. Qed.

Lemma fresh_not_allocated (m : kmem) : heap m !! fresh (dom (heap m)) = None.
Proof. apply not_elem_of_dom, is_fresh. Qed.

Lemma bind_run {A B : Type} (c : M A) (k : A → M B) (s : sys) :
  (c ≫= k) s = match c s with Some (a, s') => k a s' | None => None end.
Proof. reflexivity. Qed.

Lemma ret_run {A : Type} (a : A) (s : sys) : (mret a : M A) s = Some (a, s).
Proof. reflexivity. Qed.

Lemma state_after_run {A : Type} (r : option (A * sys)) (a : A) (s : sys) :
  r = Some (a, s) → s = state_after r.
Proof. intros ->. reflexivity. Qed.

Lemma heap_linked (p : kptr) (name : string) (t : kobj_type) (parent : option kptr)
    (o : btrfs_kobject) (m : kmem) :
  heap (linked p name t parent o m) = <[p := init_kobj name t parent o]> (heap m).
Proof.
  unfold linked. cbv zeta.
  destruct (k_kset (kobj o) && bool_decide (parent = None));
    rewrite ?heap_kset_join; reflexivity.
Qed.

(** Dropping the only reference of a freshly initialised node. *)
Lemma kobject_put_fresh (p : kptr) (name : string) (t : kobj_type)
    (parent : option kptr) (o : btrfs_kobject) (m : kmem) (tr : list event) :
  kobject_put (Some p) (Sys (linked p name t parent o m) tr) =
  Some (tt, Sys (torn_down p (init_kobj name t parent o) (linked p name t parent o m))
                (EvRelease p :: tr)).
Proof.
  rewrite kobject_put_eq. cbn [mem]. rewrite heap_linked, lookup_insert_eq.
  rewrite kobject_cleanup_eq. reflexivity.
Qed.

(** The return of a call that keeps its node. *)
Lemma end_of_call_published (p : kptr) (name : string) (t : kobj_type)
    (parent : option kptr) (o : btrfs_kobject) (m : kmem) (tr : list event) :
  end_of_call p (Sys (published p name t parent o m) tr) =
  Some (tt, Sys (returned p name t parent o m) tr).
Proof.
  unfold end_of_call, returned, published. mred. rewrite lookup_insert_eq.
  reflexivity.
Qed.

(** What [btrfs_kobject_create] computes, step by step. *)
Lemma btrfs_kobject_create_eq (E : env) (name : string) (t : kobj_type)
    (parent : option kptr) (s : sys) :
  btrfs_kobject_create E name t parent s =
  if kzalloc_fails E (mem s) then Some (None, s)
  else
    let p := fresh (dom (heap (mem s))) in
    let o := fresh_obj parent (mem s) in
    let m0 := allocated p parent (mem s) in
    let m2 := linked p name t parent o m0 in
    let r := sysfs_create_dir E m2 p in
    match check_live parent (Sys m0 (trace s)) with
    | None => None
    | Some _ =>
      if bool_decide (r = 0)
      then Some (Some p, Sys (returned p name t parent o m0) (EvAdd p name r :: trace s))
      else Some (None, Sys (torn_down p (init_kobj name t parent o) m2)
                           (EvRelease p :: EvAdd p name r :: trace s))
    end.
Proof.
  unfold btrfs_kobject_create.
  rewrite bind_run, kzalloc_eq.
  destruct (kzalloc_fails E (mem s)); [reflexivity|].
  cbv zeta. set (p := fresh (dom (heap (mem s)))).
  assert (Hstep : ∀ m0 o tr, heap m0 !! p = Some o →
    (kobject_init_and_add E (Some p) t parent name
      ≫= λ ret : Z, if bool_decide (ret ≠ 0)
                    then kobject_put (Some p) ≫= λ _ : (), mret None
                    else end_of_call p ≫= λ _ : (), mret (Some p)) (Sys m0 tr) =
    match check_live parent (Sys m0 tr) with
    | None => None
    | Some _ =>
      if bool_decide (sysfs_create_dir E (linked p name t parent o m0) p = 0)
      then Some (Some p, Sys (returned p name t parent o m0)
                   (EvAdd p name (sysfs_create_dir E (linked p name t parent o m0) p) :: tr))
      else Some (None, Sys (torn_down p (init_kobj name t parent o)
                                        (linked p name t parent o m0))
                   (EvRelease p
                    :: EvAdd p name (sysfs_create_dir E (linked p name t parent o m0) p)
                    :: tr))
    end).
  { intros m0 o tr Ho. rewrite bind_run, kobject_init_and_add_eq. cbn [mem trace].
    rewrite Ho. destruct (check_live parent (Sys m0 tr)) as [[[] ?]|]; [|reflexivity].
    cbv zeta. case_bool_decide as Hr.
    - rewrite bool_decide_eq_false_2 by (intros H; apply H; reflexivity).
      rewrite bind_run, end_of_call_published. reflexivity.
    - rewrite bool_decide_eq_true_2 by exact Hr.
      rewrite bind_run, kobject_put_fresh. reflexivity. }
  destruct parent as [q|].
  - rewrite bind_run, ret_run. apply Hstep. apply lookup_insert_eq.
  - rewrite bind_run.
    replace ((assign_kset p ≫= λ _ : (), mret None)
               (Sys (set_heap (<[p:=zeroed]> (heap (mem s))) (mem s)) (trace s)))
      with (Some (@None kptr, Sys (allocated p None (mem s)) (trace s))).
    + apply Hstep. apply lookup_insert_eq.
    + unfold assign_kset, allocated, fresh_obj. mred. rewrite lookup_insert_eq.
      fields. rewrite insert_insert_eq. reflexivity.
Qed.

(** ** Creation *)

Lemma parent_ok_allocated (parent : option kptr) (p : kptr) (m : kmem)
    (tr : list event) :
  parent_ok parent m →
  check_live parent (Sys (allocated p parent m) tr) = Some (tt, Sys (allocated p parent m) tr).
Proof.
  intros H. apply check_live_eq. intros q Hq. unfold allocated. fields.
  destruct (decide (p = q)) as [->|Hne].
  - rewrite lookup_insert_eq. eauto.
  - rewrite lookup_insert_ne by exact Hne. apply (H q Hq).
Qed.

Lemma published_lookup (p : kptr) (name : string) (t : kobj_type)
    (parent : option kptr) (o : btrfs_kobject) (m : kmem) :
  heap (published p name t parent o m) !! p =
  Some (with_state_in_sysfs true (init_kobj name t parent o)).
Proof. unfold published. fields. apply lookup_insert_eq. Qed.

Lemma published_kset (p : kptr) (name : string) (t : kobj_type)
    (parent : option kptr) (o : btrfs_kobject) (m : kmem) :
  btrfs_kset (published p name t parent o m) =
  if k_kset (kobj o) && bool_decide (parent = None)
  then (λ l, p :: l) <$> btrfs_kset m else btrfs_kset m.
Proof.
  unfold published, linked. fields.
  destruct (k_kset (kobj o) && bool_decide (parent = None)); [|reflexivity].
  unfold kset_join, set_btrfs_kset, set_heap. simpl. destruct (btrfs_kset m); reflexivity.
Qed.

Lemma elem_of_children (m : kmem) (q c : kptr) :
  c ∈ children m q ↔ ∃ o, heap m !! c = Some o ∧ k_parent (kobj o) = Some q.
Proof.
  unfold children, is_child_of. rewrite elem_of_dom. split.
  - intros [o Ho]. apply map_lookup_filter_Some in Ho as [Ho Hc]. simpl in Hc.
    apply bool_decide_eq_true in Hc. eauto.
  - intros (o & Ho & Hc). exists o. apply map_lookup_filter_Some. split; [exact Ho|].
    simpl. apply bool_decide_eq_true, Hc.
Qed.

Lemma returned_lookup (p : kptr) (name : string) (t : kobj_type)
    (parent : option kptr) (o : btrfs_kobject) (m : kmem) :
  heap (returned p name t parent o m) !! p =
  Some (with_ktype KtDead (with_state_in_sysfs true (init_kobj name t parent o))).
Proof. unfold returned. fields. apply lookup_insert_eq. Qed.

Lemma returned_kset (p : kptr) (name : string) (t : kobj_type)
    (parent : option kptr) (o : btrfs_kobject) (m : kmem) :
  btrfs_kset (returned p name t parent o m) =
  if k_kset (kobj o) && bool_decide (parent = None)
  then (λ l, p :: l) <$> btrfs_kset m else btrfs_kset m.
Proof. unfold returned. fields. apply published_kset. Qed.

(** The node a successful [btrfs_kobject_create] returns. *)
Lemma created_node (E : env) (name : string) (t : kobj_type) (parent : option kptr)
    (s : sys) (p : kptr) (s' : sys) :
  btrfs_kobject_create E name t parent s = Some (Some p, s') →
  p = fresh (dom (heap (mem s)))
  ∧ mem s' = returned p name t parent (fresh_obj parent (mem s))
                      (allocated p parent (mem s))
  ∧ trace s' = EvAdd p name 0 :: trace s.
Proof.
  rewrite btrfs_kobject_create_eq.
  destruct (kzalloc_fails E (mem s)); [discriminate|]. cbv zeta.
  destruct (check_live _ _); [|discriminate].
  case_bool_decide as Hr; [|discriminate].
  rewrite Hr. intros [= <- <-]. auto.
Qed.

(** C7: a successful [btrfs_kobject_create] returns the address of a block
    that was not in use before and now holds a node with one reference, the
    zero payload [kzalloc] left (the function takes no payload), the given
    name and parent, published; with a null parent the node is the new head
    of the registered kset's list, otherwise it is among the children of the
    given parent and the kset's list is as before.  The node's type pointer
    is the address of the call's own parameter, which is dead once the call
    has returned. *)
Theorem create_success_node (E : env) (name : string) (t : kobj_type)
    (parent : option kptr) (s : sys) (p : kptr) (s' : sys) :
  btrfs_kobject_create E name t parent s = Some (Some p, s') →
  heap (mem s) !! p = None
  ∧ (∃ o, heap (mem s') !! p = Some o
          ∧ k_kref (kobj o) = 1 ∧ ptr o = 0
          ∧ k_name (kobj o) = name ∧ k_ktype (kobj o) = KtDead
          ∧ k_parent (kobj o) = parent ∧ k_state_in_sysfs (kobj o) = true)
  ∧ match parent with
    | None => ∀ l, btrfs_kset (mem s) = Some l → roots (mem s') = p :: l
    | Some q => p ∈ children (mem s') q ∧ roots (mem s') = roots (mem s)
    end.
Proof.
  intros H. apply created_node in H as (-> & Hmem & _).
  set (p := fresh (dom (heap (mem s)))). split; [apply fresh_not_allocated|].
  split.
  - eexists. rewrite Hmem, returned_lookup. split; [reflexivity|].
    destruct parent; repeat split; reflexivity.
  - destruct parent as [q|].
    + split.
      * apply elem_of_children. eexists. rewrite Hmem, returned_lookup.
        split; reflexivity.
      * unfold roots. rewrite Hmem, returned_kset. reflexivity.
    + intros l Hl. unfold roots. rewrite Hmem, returned_kset.
      unfold fresh_obj. cbn. rewrite Hl. reflexivity.
Qed.

(** The first top-level node and a child under it. *)
Lemma create_success_node_witness :
  btrfs_kobject_create (refusing "") "devices" btrfs_ktype_devices None registered
    = Some (Some 1%positive, with_devices)
  ∧ roots (mem with_devices) = [1%positive]
  ∧ btrfs_kobject_create (refusing "") "sda" btrfs_ktype_device (Some 1%positive)
      with_devices = Some (Some 2%positive, with_sda)
  ∧ 2%positive ∈ children (mem with_sda) 1%positive.
Proof.
  assert (H1 : btrfs_kobject_create (refusing "") "devices" btrfs_ktype_devices None
                 registered = Some (Some 1%positive, with_devices))
    by (vm_compute; reflexivity).
  assert (H2 : btrfs_kobject_create (refusing "") "sda" btrfs_ktype_device
                 (Some 1%positive) with_devices = Some (Some 2%positive, with_sda))
    by (vm_compute; reflexivity).
  split; [exact H1|]. split.
  - exact (proj2 (proj2 (create_success_node _ _ _ _ _ _ _ H1)) [] eq_refl).
  - split; [exact H2|].
    exact (proj1 (proj2 (proj2 (create_success_node _ _ _ _ _ _ _ H2)))).
Defined.

Lemma releases_cons (p : kptr) (e : event) (t : list event) :
  releases p (e :: t) =
  ((if bool_decide (e = EvRelease p) then 1 else 0) + releases p t)%nat.
Proof.
  unfold releases. rewrite filter_cons.
  case_decide; case_bool_decide; simpl; congruence.
Qed.

Lemma torn_down_lookup (p : kptr) (o : btrfs_kobject) (m : kmem) :
  heap (torn_down p o m) !! p = None.
Proof. unfold torn_down. fields. apply lookup_delete_eq. Qed.

Lemma kset_leave_kset (p : kptr) (m : kmem) :
  btrfs_kset (kset_leave p m) = filter (λ q, q ≠ p) <$> btrfs_kset m.
Proof. unfold kset_leave. destruct (btrfs_kset m) eqn:H; simpl; [reflexivity|exact H]. Qed.

Lemma unlinked_kset (p : kptr) (o : btrfs_kobject) (m : kmem) :
  btrfs_kset (unlinked p o m) = filter (λ q, q ≠ p) <$> btrfs_kset m.
Proof. unfold unlinked. fields. rewrite kset_leave_kset. reflexivity. Qed.

Lemma torn_down_kset (p : kptr) (o : btrfs_kobject) (m : kmem) :
  btrfs_kset (torn_down p o m) = filter (λ q, q ≠ p) <$> btrfs_kset m.
Proof. unfold torn_down. fields. apply unlinked_kset. Qed.

Lemma torn_down_roots (p : kptr) (o : btrfs_kobject) (m : kmem) :
  p ∉ roots (torn_down p o m).
Proof.
  unfold roots. rewrite torn_down_kset.
  destruct (btrfs_kset m) as [l|]; simpl.
  - intros [H _]%list_elem_of_filter. apply H. reflexivity.
  - apply not_elem_of_nil.
Qed.

(** C2, as the code has it: when the renderer refuses the node, create hands
    its only reference back with [kobject_put]; the count reaches zero, so
    the type's release callback runs on the node, exactly once, and frees it.
    Afterwards the block is no longer allocated, it is neither among the
    roots nor among the children of any node, and the caller gets null. *)
Theorem create_publish_failure_releases (E : env) (name : string) (t : kobj_type)
    (parent : option kptr) (s : sys) :
  kzalloc_fails E (mem s) = false →
  parent_ok parent (mem s) →
  publish_answer E name t parent s ≠ 0 →
  let p := fresh (dom (heap (mem s))) in
  ∃ s', btrfs_kobject_create E name t parent s = Some (None, s')
        ∧ heap (mem s') !! p = None
        ∧ (p ∉ roots (mem s'))
        ∧ (∀ q, p ∉ children (mem s') q)
        ∧ trace s' = EvRelease p :: EvAdd p name (publish_answer E name t parent s)
                     :: trace s
        ∧ releases p (trace s') = S (releases p (trace s)).
Proof.
  intros Ha Hp Hr p. rewrite btrfs_kobject_create_eq, Ha. cbv zeta.
  rewrite (parent_ok_allocated _ _ _ _ Hp).
  unfold publish_answer in Hr. fold p in Hr |- *.
  rewrite bool_decide_eq_false_2 by exact Hr.
  eexists. split; [reflexivity|]. cbn [mem trace].
  split; [apply torn_down_lookup|].
  split; [apply torn_down_roots|].
  split.
  - intros q (o & Ho & _)%elem_of_children.
    rewrite torn_down_lookup in Ho. discriminate.
  - split; [reflexivity|].
    rewrite !releases_cons.
    rewrite bool_decide_eq_true_2 by reflexivity.
    rewrite bool_decide_eq_false_2 by discriminate. reflexivity.
Qed.

Lemma create_publish_failure_releases_witness :
  btrfs_kobject_create (refusing "health") "health" btrfs_ktype_health None registered
    = Some (None, with_refused)
  ∧ trace with_refused = [EvRelease 1%positive; EvAdd 1%positive "health" (-17)]
  ∧ roots (mem with_refused) = [].
Proof.
  destruct (create_publish_failure_releases (refusing "health") "health"
              btrfs_ktype_health None registered)
    as (s' & Hrun & _ & _ & _ & Htr & _).
  - reflexivity.
  - intros q Hq. discriminate Hq.
  - vm_compute. discriminate.
  - split; [vm_compute; reflexivity|].
    split; vm_compute; reflexivity.
Defined.

(** C2 as stated fails: the renderer refuses [health], create returns null,
    and the release callback has run on the node. *)
Lemma release_runs_on_publish_failure :
  publish_answer (refusing "health") "health" btrfs_ktype_health None registered ≠ 0
  ∧ ∃ s', btrfs_kobject_create (refusing "health") "health" btrfs_ktype_health
            None registered = Some (None, s')
          ∧ releases 1%positive (trace registered) = 0%nat
          ∧ releases 1%positive (trace s') = 1%nat.
Proof.
  split; [vm_compute; discriminate|].
  exists with_refused. conjuncts; vm_compute; reflexivity.
Qed.

(** ** Declarations *)

(** C4, as the code has it: a declaration is a plain initializer and nothing
    checks it.  [BTRFS_ATTR] yields the descriptor with exactly the fields it
    was given, whatever they are, and [btrfs_kobject_create] registers a node
    of any type, whatever its attribute list, as soon as memory is available
    and the renderer accepts the node.  A missing callback shows only when
    the attribute is used: the write fails with [-EIO]. *)
Theorem declarations_are_not_validated (E : env) (name : string)
    (attrs : list btrfs_kobject_attr) (parent : option kptr) (s : sys) :
  (∀ n m sh st, BTRFS_ATTR n m sh st = BtrfsKobjectAttr (Attribute n m) sh st)
  ∧ (let t := KobjType btrfs_sysfs_ops btrfs_kobject_release_fn attrs in
     kzalloc_fails E (mem s) = false →
     parent_ok parent (mem s) →
     publish_answer E name t parent s = 0 →
     ∃ p s', btrfs_kobject_create E name t parent s = Some (Some p, s')
             ∧ ∃ o, heap (mem s') !! p = Some o ∧ k_name (kobj o) = name
                    ∧ k_state_in_sysfs (kobj o) = true)
  ∧ (∀ a kobj buf len, a ∈ attrs → store a = None →
       btrfs_kobject_attr_store E kobj a buf len s = Some (- EIO, s)).
Proof.
  split; [reflexivity|]. split.
  - intros t Ha Hp Hr. rewrite btrfs_kobject_create_eq, Ha. cbv zeta.
    rewrite (parent_ok_allocated _ _ _ _ Hp).
    unfold publish_answer in Hr. rewrite Hr.
    rewrite bool_decide_eq_true_2 by reflexivity.
    eexists _, _. split; [reflexivity|]. cbn [mem].
    eexists. rewrite returned_lookup. repeat split; reflexivity.
  - intros a kobj buf len _ Hst. rewrite store_dispatch, Hst. reflexivity.
Qed.

Lemma declarations_are_not_validated_witness :
  btrfs_kobject_create (refusing "") "odd" btrfs_ktype_malformed None registered
    = Some (Some 1%positive, with_malformed)
  ∧ btrfs_kobject_attr_store (refusing "") 1%positive btrfs_attr_x "1" 1 with_malformed
    = Some (-5, with_malformed).
Proof.
  destruct (declarations_are_not_validated (refusing "") "odd"
              (default_attrs btrfs_ktype_malformed) None registered)
    as (_ & Hcreate & _).
  destruct (declarations_are_not_validated (refusing "") "odd"
              (default_attrs btrfs_ktype_malformed) None with_malformed)
    as (_ & _ & Hstore).
  split.
  - destruct Hcreate as (p & s' & Hrun & _).
    + reflexivity.
    + intros q Hq. discriminate Hq.
    + vm_compute. reflexivity.
    + vm_compute. reflexivity.
  - apply Hstore; [|reflexivity]. apply list_elem_of_here.
Defined.

(** C4 as stated fails: a type with a writable attribute without [store] is
    declared without any error, as is one that lists a name twice, and a node
    of the former is created and sits in the tree. *)
Lemma malformed_type_is_registered :
  spec_valid_node_type btrfs_ktype_malformed = false
  ∧ spec_valid_node_type btrfs_ktype_repeating = false
  ∧ ∃ s', btrfs_kobject_create (refusing "") "odd" btrfs_ktype_malformed None
            registered = Some (Some 1%positive, s')
          ∧ roots (mem s') = [1%positive]
          ∧ (k_state_in_sysfs ∘ kobj <$> heap (mem s') !! 1%positive)
            = Some true.
Proof.
  split; [vm_compute; reflexivity|]. split; [vm_compute; reflexivity|].
  exists with_malformed. conjuncts; vm_compute; reflexivity.
Qed.

(** ** Reference counting *)

Lemma acquires_nonneg (ops : list refop) : 0 ≤ acquires ops.
Proof. induction ops as [|[] ops IH]; simpl; lia. Qed.

Lemma drops_nonneg (ops : list refop) : 0 ≤ drops ops.
Proof. induction ops as [|[] ops IH]; simpl; lia. Qed.

Lemma run_op_dangling (p : kptr) (op : refop) (s : sys) :
  heap (mem s) !! p = None → run_op p op s = None.
Proof.
  intros H. destruct op; unfold run_op, btrfs_kobject_destroy.
  - rewrite kobject_get_eq, H. reflexivity.
  - rewrite kobject_put_eq, H. reflexivity.
Qed.

Lemma run_ops_dangling (p : kptr) (ops : list refop) (s s' : sys) :
  heap (mem s) !! p = None → run_ops p ops s = Some (tt, s') → ops = [] ∧ s' = s.
Proof.
  intros H. destruct ops as [|op rest]; simpl.
  - intros [= <-]. auto.
  - rewrite bind_run, (run_op_dangling _ _ _ H). discriminate.
Qed.

Lemma releases_app_del (p h : kptr) (b : bool) (t : list event) :
  releases p ((if b then [EvDel h] else []) ++ t) = releases p t.
Proof.
  destruct b; simpl; [|reflexivity].
  rewrite releases_cons, bool_decide_eq_false_2 by discriminate. reflexivity.
Qed.

(** The state of a live node with a valid type after one more [Drop]. *)
Lemma last_drop (p : kptr) (o : btrfs_kobject) (t : kobj_type) (s : sys) :
  heap (mem s) !! p = Some o → k_kref (kobj o) = 1 → k_ktype (kobj o) = KtLive t →
  ∃ s1, kobject_put (Some p) s = Some (tt, s1)
        ∧ heap (mem s1) !! p = None
        ∧ releases p (trace s1) = S (releases p (trace s)).
Proof.
  intros Hp Hc Ht. rewrite kobject_put_eq, Hp, Hc.
  rewrite kobject_cleanup_eq, Ht. eexists. split; [reflexivity|].
  cbn [mem trace]. split; [apply torn_down_lookup|].
  rewrite releases_cons, bool_decide_eq_true_2 by reflexivity.
  rewrite releases_app_del. reflexivity.
Qed.

(** The same [Drop] on a node whose type pointer dangles. *)
Lemma last_drop_dead (p : kptr) (o : btrfs_kobject) (s : sys) :
  heap (mem s) !! p = Some o → k_kref (kobj o) = 1 → k_ktype (kobj o) = KtDead →
  btrfs_kobject_destroy (Some p) s = None.
Proof.
  intros Hp Hc Ht. unfold btrfs_kobject_destroy.
  rewrite kobject_put_eq, Hp, Hc. rewrite kobject_cleanup_eq, Ht. reflexivity.
Qed.

(** The count of a live node with a valid type follows the operations; the
    release callback runs when, and only when, it reaches zero, and then
    nothing can follow. *)
Lemma run_ops_count (p : kptr) (t : kobj_type) (ops : list refop) :
  ∀ (s s' : sys) (o : btrfs_kobject),
    heap (mem s) !! p = Some o → 0 < k_kref (kobj o) → k_ktype (kobj o) = KtLive t →
    run_ops p ops s = Some (tt, s') →
    drops ops ≤ acquires ops + k_kref (kobj o)
    ∧ (drops ops < acquires ops + k_kref (kobj o) →
       releases p (trace s') = releases p (trace s)
       ∧ ∃ o', heap (mem s') !! p = Some o'
               ∧ k_kref (kobj o') = k_kref (kobj o) + acquires ops - drops ops)
    ∧ (drops ops = acquires ops + k_kref (kobj o) →
       releases p (trace s') = S (releases p (trace s))
       ∧ heap (mem s') !! p = None).
Proof.
  induction ops as [|op rest IH]; intros s s' o Hp Hc Ht; simpl.
  - intros [= <-]. split; [lia|]. split; [|lia].
    intros _. split; [reflexivity|]. exists o. split; [exact Hp|lia].
  - rewrite bind_run. destruct op; unfold run_op, btrfs_kobject_destroy.
    + rewrite kobject_get_eq, Hp.
      rewrite bool_decide_eq_false_2 by lia.
      intros Hrun. eapply IH in Hrun as (Hle & Hlive & Hdead);
        [| cbn [mem heap set_heap]; apply lookup_insert_eq | cbn; lia | exact Ht].
      cbn in Hle, Hlive, Hdead. cbn [trace] in *.
      split; [lia|]. split.
      * intros Hlt. destruct Hlive as (Hr & o' & Ho' & Hk); [lia|].
        split; [exact Hr|]. exists o'. split; [exact Ho'|lia].
      * intros Heq. apply Hdead. lia.
    + destruct (decide (k_kref (kobj o) = 1)) as [H1|H1].
      * destruct (last_drop p o t s Hp H1 Ht) as (s1 & -> & Hgone & Hrel).
        intros Hrun. apply run_ops_dangling in Hrun as [-> ->]; [|exact Hgone].
        simpl. split; [lia|]. split; [lia|]. intros _. auto.
      * rewrite kobject_put_eq, Hp.
        rewrite bool_decide_eq_false_2 by lia.
        rewrite bool_decide_eq_false_2 by lia.
        intros Hrun. eapply IH in Hrun as (Hle & Hlive & Hdead);
          [| cbn [mem heap set_heap]; apply lookup_insert_eq | cbn; lia | exact Ht].
        cbn in Hle, Hlive, Hdead. cbn [trace] in *.
        split; [lia|]. split.
        -- intros Hlt. destruct Hlive as (Hr & o' & Ho' & Hk); [lia|].
           split; [exact Hr|]. exists o'. split; [exact Ho'|lia].
        -- intros Heq. apply Hdead. lia.
Qed.

(** On a live node whose type pointer dangles, a sequence of operations has a
    defined result exactly when it never gives the last reference back, and
    then the count has followed the operations and no release has run. *)
Lemma run_ops_dead (p : kptr) (ops : list refop) :
  ∀ (s : sys) (o : btrfs_kobject),
    heap (mem s) !! p = Some o → 0 < k_kref (kobj o) → k_ktype (kobj o) = KtDead →
    if keeps_reference (k_kref (kobj o)) ops
    then ∃ s' o', run_ops p ops s = Some (tt, s')
                  ∧ releases p (trace s') = releases p (trace s)
                  ∧ heap (mem s') !! p = Some o'
                  ∧ k_ktype (kobj o') = KtDead
                  ∧ k_kref (kobj o') = k_kref (kobj o) + acquires ops - drops ops
                  ∧ 0 < k_kref (kobj o')
    else run_ops p ops s = None.
Proof.
  induction ops as [|op rest IH]; intros s o Hp Hc Ht; simpl.
  - exists s, o. repeat split; [exact Hp | exact Ht | lia | exact Hc].
  - rewrite bind_run. destruct op; unfold run_op.
    + rewrite kobject_get_eq, Hp. rewrite bool_decide_eq_false_2 by lia.
      set (s1 := Sys _ _).
      specialize (IH s1 (with_kref (k_kref (kobj o) + 1) o)).
      cbn [kobj with_kref set_kobj k_kref k_ktype] in IH.
      destruct (keeps_reference (k_kref (kobj o) + 1) rest).
      * destruct IH as (s' & o' & Hrun & Hr & Ho' & Ht' & Hk & Hpos);
          [apply lookup_insert_eq | lia | exact Ht |].
        exists s', o'. repeat split; [exact Hrun | exact Hr | exact Ho' | exact Ht' | lia | exact Hpos].
      * apply IH; [apply lookup_insert_eq | lia | exact Ht].
    + case_bool_decide as H1; cbn [andb].
      * unfold btrfs_kobject_destroy. rewrite kobject_put_eq, Hp.
        rewrite bool_decide_eq_false_2 by lia.
        rewrite bool_decide_eq_false_2 by lia.
        set (s1 := Sys _ _).
        specialize (IH s1 (with_kref (k_kref (kobj o) - 1) o)).
        cbn [kobj with_kref set_kobj k_kref k_ktype] in IH.
        destruct (keeps_reference (k_kref (kobj o) - 1) rest).
        -- destruct IH as (s' & o' & Hrun & Hr & Ho' & Ht' & Hk & Hpos);
             [apply lookup_insert_eq | lia | exact Ht |].
           exists s', o'. repeat split; [exact Hrun | exact Hr | exact Ho' | exact Ht' | lia | exact Hpos].
        -- apply IH; [apply lookup_insert_eq | lia | exact Ht].
      * rewrite (last_drop_dead p o s Hp) by (exact Ht || lia). reflexivity.
Qed.

(** C5 on the code: [btrfs_kobject_create] hands [kobject_init_and_add] the
    address of its own by-value parameter [ktype], so the node it returns
    carries a type pointer into a frame that no longer exists.  On such a
    node a sequence of acquires and drops has a defined result exactly when
    it never gives the last reference back: the count then is
    1 + acquires - drops and stays positive, the release callback has not
    run, and the drop that would bring the count to zero has no defined
    result.  So for no sequence does the release callback fire once at
    zero. *)
Theorem release_after_create_undefined (E : env) (name : string) (t : kobj_type)
    (parent : option kptr) (s0 : sys) (p : kptr) (s : sys) (ops : list refop) :
  btrfs_kobject_create E name t parent s0 = Some (Some p, s) →
  (keeps_reference 1 ops = false → run_ops p ops s = None)
  ∧ (keeps_reference 1 ops = true →
     ∃ s' o', run_ops p ops s = Some (tt, s')
              ∧ drops ops < acquires ops + 1
              ∧ releases p (trace s') = releases p (trace s)
              ∧ heap (mem s') !! p = Some o'
              ∧ k_kref (kobj o') = 1 + acquires ops - drops ops
              ∧ (drops ops = acquires ops →
                 btrfs_kobject_destroy (Some p) s' = None)).
Proof.
  intros Hcreate.
  apply created_node in Hcreate as (-> & Hmem & _).
  set (p := fresh (dom (heap (mem s0)))) in *.
  assert (Hp : heap (mem s) !! p
               = Some (with_ktype KtDead (with_state_in_sysfs true
                         (init_kobj name t parent (fresh_obj parent (mem s0))))))
    by (rewrite Hmem; apply returned_lookup).
  pose proof (run_ops_dead p ops s _ Hp ltac:(cbn; lia) eq_refl) as H.
  cbn [kobj with_ktype with_state_in_sysfs init_kobj set_kobj k_kref] in H.
  split; intros Hk; rewrite Hk in H; [exact H|].
  destruct H as (s' & o' & Hrun & Hr & Ho' & Ht' & Hcount & Hpos).
  exists s', o'. repeat split; [exact Hrun | lia | exact Hr | exact Ho' | exact Hcount |].
  intros Heq. apply (last_drop_dead p o' s' Ho'); [lia | exact Ht'].
Qed.

(** [devices] is created; a further handle is taken and given back, and the
    drop of the handle create returned has no defined result, neither then
    nor right after the create. *)
Lemma release_after_create_undefined_witness :
  btrfs_kobject_create (refusing "") "devices" btrfs_ktype_devices None registered
    = Some (Some 1%positive, with_devices)
  ∧ run_ops 1%positive [Acquire; Drop] with_devices = Some (tt, with_devices_held)
  ∧ btrfs_kobject_destroy (Some 1%positive) with_devices_held = None
  ∧ run_ops 1%positive [Drop] with_devices = None.
Proof.
  assert (H1 : btrfs_kobject_create (refusing "") "devices" btrfs_ktype_devices None
                 registered = Some (Some 1%positive, with_devices))
    by (vm_compute; reflexivity).
  destruct (release_after_create_undefined _ _ _ _ _ _ _ [Acquire; Drop] H1)
    as [_ Hheld].
  destruct (release_after_create_undefined _ _ _ _ _ _ _ [Drop] H1)
    as [Hdrop _].
  destruct Hheld as (s' & o' & Hrun & _ & _ & _ & _ & Hlast); [reflexivity|].
  pose proof (state_after_run _ _ _ Hrun) as Hs'.
  change (state_after _) with with_devices_held in Hs'. subst s'.
  split; [exact H1|]. split; [exact Hrun|].
  split; [apply Hlast; reflexivity | apply Hdrop; reflexivity].
Defined.

(** ** Destroying a parent *)

Lemma unlinked_lookup_ne (p c : kptr) (o : btrfs_kobject) (m : kmem) :
  p ≠ c → heap (unlinked p o m) !! c = detach_from p <$> heap m !! c.
Proof.
  intros Hne. unfold unlinked. fields. rewrite lookup_fmap, heap_kset_leave. fields.
  rewrite lookup_insert_ne by exact Hne. reflexivity.
Qed.

Lemma torn_down_lookup_ne (p c : kptr) (o : btrfs_kobject) (m : kmem) :
  p ≠ c → heap (torn_down p o m) !! c = detach_from p <$> heap m !! c.
Proof.
  intros Hne. unfold torn_down. fields. rewrite lookup_delete_ne by exact Hne.
  apply unlinked_lookup_ne, Hne.
Qed.





(** ** Devices *)

(** C9: [btrfs_create_device] runs [kobject_init_and_add] on the caller's
    block under [btrfs_devices], drops its value and returns 0; it returns
    nothing else, [-EINVAL] in particular, and it returns whenever the block
    and [btrfs_devices] are null or allocated.  When the renderer refuses the
    node the caller still gets 0, and the state is the one the refused
    publish left: the node initialised with one reference and linked to its
    parent, unpublished, no reference dropped and no release callback run. *)
Theorem create_device_always_succeeds (E : env) (super_kobj : option kptr)
    (label : string) (s : sys) :
  btrfs_create_device E super_kobj label s =
    match kobject_init_and_add E super_kobj btrfs_ktype_device
            (btrfs_devices (mem s)) label s with
    | Some (_, s') => Some (0, s')
    | None => None
    end
  ∧ (∀ r s', btrfs_create_device E super_kobj label s = Some (r, s') →
       r = 0 ∧ r ≠ - EINVAL)
  ∧ (parent_ok super_kobj (mem s) → parent_ok (btrfs_devices (mem s)) (mem s) →
     is_Some (btrfs_create_device E super_kobj label s))
  ∧ (∀ p o, super_kobj = Some p → heap (mem s) !! p = Some o →
       parent_ok (btrfs_devices (mem s)) (mem s) →
       let m2 := linked p label btrfs_ktype_device (btrfs_devices (mem s)) o (mem s) in
       let r := sysfs_create_dir E m2 p in
       r ≠ 0 →
       btrfs_create_device E super_kobj label s
         = Some (0, Sys m2 (EvAdd p label r :: trace s))
       ∧ heap m2 !! p
         = Some (init_kobj label btrfs_ktype_device (btrfs_devices (mem s)) o)).
Proof.
  assert (Heq : btrfs_create_device E super_kobj label s =
    match kobject_init_and_add E super_kobj btrfs_ktype_device
            (btrfs_devices (mem s)) label s with
    | Some (_, s') => Some (0, s')
    | None => None
    end).
  { unfold btrfs_create_device. mred.
    destruct (kobject_init_and_add _ _ _ _ _ s) as [[? ?]|]; reflexivity. }
  split; [exact Heq|]. split; [|split].
  - intros r s'. rewrite Heq.
    destruct (kobject_init_and_add _ _ _ _ _ s) as [[? ?]|]; [|discriminate].
    intros [= <- _]. split; [reflexivity|discriminate].
  - intros Hs Hd. rewrite Heq. destruct super_kobj as [p|]; [|simpl; eauto].
    rewrite kobject_init_and_add_eq.
    destruct (Hs p eq_refl) as [o ->]. rewrite (check_live_eq _ _ Hd). cbv zeta.
    case_bool_decide; eauto.
  - intros p o -> Hp Hd m2 r Hr. split.
    + rewrite Heq, kobject_init_and_add_eq, Hp, (check_live_eq _ _ Hd). cbv zeta.
      fold m2. fold r. rewrite bool_decide_eq_false_2 by exact Hr. reflexivity.
    + unfold m2. rewrite heap_linked. apply lookup_insert_eq.
Qed.

Lemma create_device_always_succeeds_witness :
  btrfs_devices (mem with_block) = Some 1%positive
  ∧ heap (mem with_block) !! 4%positive = Some zeroed
  ∧ btrfs_create_device (refusing "sda") (Some 4%positive) "sda" with_block
    = Some (0, with_unpublished_sda)
  ∧ trace with_unpublished_sda = EvAdd 4%positive "sda" (-17) :: trace with_block.
Proof.
  assert (Hp : heap (mem with_block) !! 4%positive = Some zeroed)
    by (vm_compute; reflexivity).
  destruct (create_device_always_succeeds (refusing "sda") (Some 4%positive) "sda"
              with_block) as (_ & Hzero & Hdef & _).
  destruct Hdef as [[r s'] Hrun].
  - intros q [= <-]. rewrite Hp. eauto.
  - intros q Hq. vm_compute in Hq. injection Hq as <-. vm_compute. eauto.
  - destruct (Hzero r s' Hrun) as [-> _].
    pose proof (state_after_run _ _ _ Hrun) as Hs'.
    change (state_after _) with with_unpublished_sda in Hs'. subst s'.
    split; [vm_compute; reflexivity|]. split; [exact Hp|]. split; [exact Hrun|].
    vm_compute. reflexivity.
Defined.

(** ** Bootstrap *)

Lemma hoare_bind {A B : Type} (P : sys → Prop) (c : M A) (Q : A → sys → Prop)
    (k : A → M B) (R : B → sys → Prop) :
  hoare P c Q → (∀ a, hoare (Q a) (k a) R) → hoare P (c ≫= k) R.
Proof.
  intros Hc Hk s b s' HP. rewrite bind_run.
  destruct (c s) as [[a s1]|] eqn:Hrun; [|discriminate].
  apply (Hk a s1 b s'), (Hc s a s1 HP Hrun).
Qed.

Lemma hoare_ret {A : Type} (P : sys → Prop) (a : A) (Q : A → sys → Prop) :
  (∀ s, P s → Q a s) → hoare P (mret a) Q.
Proof. intros H s a' s' HP [= <- <-]. apply H, HP. Qed.

Lemma hoare_modify (P : sys → Prop) (f : kmem → kmem) (Q : unit → sys → Prop) :
  (∀ s, P s → Q tt (Sys (f (mem s)) (trace s))) → hoare P (modify_mem f) Q.
Proof. intros H s [] s' HP. mred. intros [= <-]. apply H, HP. Qed.

Lemma hoare_get_mem (P : sys → Prop) (Q : kmem → sys → Prop) :
  (∀ s, P s → Q (mem s) s) → hoare P get_mem Q.
Proof. intros H s m s' HP. mred. intros [= <- <-]. apply H, HP. Qed.

Lemma linked_kset (p : kptr) (name : string) (t : kobj_type) (parent : option kptr)
    (o : btrfs_kobject) (m : kmem) :
  btrfs_kset (linked p name t parent o m) =
  if k_kset (kobj o) && bool_decide (parent = None)
  then (λ l, p :: l) <$> btrfs_kset m else btrfs_kset m.
Proof.
  unfold linked. fields.
  destruct (k_kset (kobj o) && bool_decide (parent = None)); [|reflexivity].
  unfold kset_join, set_btrfs_kset, set_heap. simpl.
  destruct (btrfs_kset m); reflexivity.
Qed.

Lemma create_keeps_kset (E : env) (name : string) (t : kobj_type)
    (parent : option kptr) :
  hoare kset_registered (btrfs_kobject_create E name t parent)
        (λ _, kset_registered).
Proof.
  intros s r s' [l Hl]. rewrite btrfs_kobject_create_eq. unfold kset_registered.
  destruct (kzalloc_fails E (mem s)); [intros [= _ <-]; eauto|]. cbv zeta.
  destruct (check_live _ _); [|discriminate].
  case_bool_decide; intros [= _ <-]; cbn [mem];
    rewrite ?torn_down_kset, ?returned_kset, ?linked_kset;
    unfold allocated; fields; rewrite Hl;
    destruct (k_kset _ && _); simpl; eauto.
Qed.

Lemma put_keeps_kset (k : option kptr) :
  hoare kset_registered (kobject_put k) (λ _, kset_registered).
Proof.
  intros s r s' [l Hl]. unfold kset_registered. destruct k as [p|].
  - rewrite kobject_put_eq. destruct (heap (mem s) !! p) as [o|]; [|discriminate].
    case_bool_decide; [discriminate|]. case_bool_decide.
    + rewrite kobject_cleanup_eq. cbv zeta.
      destruct (k_ktype (kobj o)); [| |discriminate]; intros [= <- <-]; cbn [mem];
        rewrite ?torn_down_kset, ?unlinked_kset, Hl; simpl; eauto.
    + intros [= <- <-]. cbn [mem btrfs_kset set_heap]. rewrite Hl. eauto.
  - intros [= <- <-]. rewrite Hl. eauto.
Qed.

(** Every way out of the bootstrap leaves the kset registered, and the value
    is 0 or [-EINVAL]. *)
Lemma static_init_keeps_kset (E : env) :
  hoare kset_registered (btrfs_static_init_sysfs E)
        (λ r s', kset_registered s' ∧ (r = 0 ∨ r = - EINVAL)).
Proof.
  assert (Hset : ∀ f : kmem → kmem, (∀ m, btrfs_kset (f m) = btrfs_kset m) →
            hoare kset_registered (modify_mem f) (λ _, kset_registered)).
  { intros f Hf. apply hoare_modify. intros s Hs. unfold kset_registered.
    cbn [mem]. rewrite Hf. exact Hs. }
  assert (Hdev : hoare kset_registered btrfs_devices_error
                   (λ r s', kset_registered s' ∧ (r = 0 ∨ r = - EINVAL))).
  { apply hoare_ret. auto. }
  assert (Hhealth : hoare kset_registered btrfs_health_error
                      (λ r s', kset_registered s' ∧ (r = 0 ∨ r = - EINVAL))).
  { apply (hoare_bind _ _ (λ _, kset_registered));
      [apply hoare_get_mem; intros s Hs; exact Hs|]. intros m.
    eapply hoare_bind; [apply put_keeps_kset|]. intros ?. exact Hdev. }
  assert (Hinfo : hoare kset_registered btrfs_info_error
                    (λ r s', kset_registered s' ∧ (r = 0 ∨ r = - EINVAL))).
  { apply (hoare_bind _ _ (λ _, kset_registered));
      [apply hoare_get_mem; intros s Hs; exact Hs|]. intros m.
    eapply hoare_bind; [apply put_keeps_kset|]. intros ?. exact Hhealth. }
  unfold btrfs_static_init_sysfs.
  eapply hoare_bind; [apply create_keeps_kset|]. intros d.
  eapply hoare_bind; [apply Hset; reflexivity|]. intros ?.
  case_bool_decide; [exact Hdev|].
  eapply hoare_bind; [apply create_keeps_kset|]. intros h.
  eapply hoare_bind; [apply Hset; reflexivity|]. intros ?.
  case_bool_decide; [exact Hhealth|].
  eapply hoare_bind; [apply create_keeps_kset|]. intros i.
  eapply hoare_bind; [apply Hset; reflexivity|]. intros ?.
  case_bool_decide; [exact Hinfo|].
  apply hoare_ret. auto.
Qed.

(** ** What a bootstrap leaves behind, in general *)

Lemma detach_from_kref (p : kptr) (o : btrfs_kobject) :
  k_kref (kobj (detach_from p o)) = k_kref (kobj o).
Proof. unfold detach_from. destruct (is_child_of p o); reflexivity. Qed.

Lemma published_lookup_ne (p q : kptr) (name : string) (t : kobj_type)
    (parent : option kptr) (o : btrfs_kobject) (m : kmem) :
  p ≠ q → heap (published p name t parent o m) !! q = heap m !! q.
Proof.
  intros Hne. unfold published. fields.
  rewrite lookup_insert_ne, heap_linked, lookup_insert_ne by exact Hne. reflexivity.
Qed.

Lemma published_globals (p : kptr) (name : string) (t : kobj_type)
    (parent : option kptr) (o : btrfs_kobject) (m : kmem) :
  btrfs_devices (published p name t parent o m) = btrfs_devices m
  ∧ btrfs_health (published p name t parent o m) = btrfs_health m
  ∧ btrfs_info (published p name t parent o m) = btrfs_info m.
Proof.
  unfold published, linked, kset_join.
  destruct (k_kset (kobj o) && bool_decide (parent = None));
    simpl; destruct (btrfs_kset m); auto.
Qed.

Lemma returned_lookup_ne (p q : kptr) (name : string) (t : kobj_type)
    (parent : option kptr) (o : btrfs_kobject) (m : kmem) :
  p ≠ q → heap (returned p name t parent o m) !! q = heap m !! q.
Proof.
  intros Hne. unfold returned. fields.
  rewrite lookup_insert_ne by exact Hne. apply published_lookup_ne, Hne.
Qed.

Lemma returned_globals (p : kptr) (name : string) (t : kobj_type)
    (parent : option kptr) (o : btrfs_kobject) (m : kmem) :
  btrfs_devices (returned p name t parent o m) = btrfs_devices m
  ∧ btrfs_health (returned p name t parent o m) = btrfs_health m
  ∧ btrfs_info (returned p name t parent o m) = btrfs_info m.
Proof. unfold returned. fields. apply published_globals. Qed.

Lemma linked_globals (p : kptr) (name : string) (t : kobj_type)
    (parent : option kptr) (o : btrfs_kobject) (m : kmem) :
  btrfs_devices (linked p name t parent o m) = btrfs_devices m
  ∧ btrfs_health (linked p name t parent o m) = btrfs_health m
  ∧ btrfs_info (linked p name t parent o m) = btrfs_info m.
Proof.
  unfold linked, kset_join.
  destruct (k_kset (kobj o) && bool_decide (parent = None));
    simpl; destruct (btrfs_kset m); auto.
Qed.

Lemma unlinked_globals (p : kptr) (o : btrfs_kobject) (m : kmem) :
  btrfs_devices (unlinked p o m) = btrfs_devices m
  ∧ btrfs_health (unlinked p o m) = btrfs_health m
  ∧ btrfs_info (unlinked p o m) = btrfs_info m.
Proof. unfold unlinked, kset_leave. simpl. destruct (btrfs_kset m); auto. Qed.

Lemma torn_down_globals (p : kptr) (o : btrfs_kobject) (m : kmem) :
  btrfs_devices (torn_down p o m) = btrfs_devices m
  ∧ btrfs_health (torn_down p o m) = btrfs_health m
  ∧ btrfs_info (torn_down p o m) = btrfs_info m.
Proof. unfold torn_down. fields. apply unlinked_globals. Qed.

Lemma elem_of_kset_filter (p q : kptr) (k : option (list kptr)) :
  p ≠ q → q ∈ default [] k → q ∈ default [] (filter (λ x, x ≠ p) <$> k).
Proof.
  intros Hne. destruct k as [l|]; simpl; [|auto].
  intros H. apply list_elem_of_filter. split; [congruence|exact H].
Qed.

Lemma elem_of_kset_cons (p q : kptr) (b : bool) (k : option (list kptr)) :
  q ∈ default [] k → q ∈ default [] (if b then (λ l, p :: l) <$> k else k).
Proof.
  destruct b; [|auto]. destruct k as [l|]; simpl; [|auto].
  intros H. apply list_elem_of_further, H.
Qed.

(** Creating a top-level node always returns, leaves the static pointers and
    every live node alone, and a node it returns is live and, with the kset
    registered, a root. *)
Lemma create_root_frame (E : env) (name : string) (t : kobj_type) (s : sys) :
  ∃ r s', btrfs_kobject_create E name t None s = Some (r, s')
    ∧ same_globals s s'
    ∧ (kset_registered s → kset_registered s')
    ∧ (∀ q, live q s → r ≠ Some q ∧ kept q s s')
    ∧ (∀ p, r = Some p → live p s' ∧ (kset_registered s → p ∈ roots (mem s'))).
Proof.
  rewrite btrfs_kobject_create_eq.
  destruct (kzalloc_fails E (mem s)).
  { exists None, s. split; [reflexivity|]. split; [repeat split|].
    split; [auto|]. split; [|discriminate].
    intros q Hq. split; [discriminate|]. split; [exact Hq|]. auto. }
  cbv zeta. set (p := fresh (dom (heap (mem s)))).
  assert (Hfresh : ∀ q, live q s → p ≠ q).
  { intros q (o & Ho & _) <-. unfold p in Ho.
    rewrite fresh_not_allocated in Ho. discriminate. }
  change (check_live None (Sys (allocated p None (mem s)) (trace s)))
    with (Some (tt, Sys (allocated p None (mem s)) (trace s))).
  cbv iota. case_bool_decide as Hr.
  - eexists _, _. split; [reflexivity|]. cbn [mem trace].
    split; [apply (returned_globals p name t None _ (allocated p None (mem s)))|].
    split; [|split].
    + intros [l Hl]. unfold kset_registered. cbn [mem].
      rewrite returned_kset. unfold allocated. fields. rewrite Hl.
      destruct (_ && _); simpl; eauto.
    + intros q Hq. pose proof (Hfresh q Hq) as Hne.
      split; [congruence|]. destruct Hq as (o & Ho & Hk). split; [|split].
      * exists o. cbn [mem]. rewrite returned_lookup_ne by exact Hne.
        unfold allocated. fields. rewrite lookup_insert_ne by exact Hne. auto.
      * unfold roots. cbn [mem]. rewrite returned_kset. apply elem_of_kset_cons.
      * cbn [trace]. rewrite releases_cons, bool_decide_eq_false_2 by discriminate.
        reflexivity.
    + intros p' [= <-]. split.
      * eexists. cbn [mem]. rewrite returned_lookup. split; [reflexivity|].
        reflexivity.
      * intros [l Hl]. unfold roots. cbn [mem]. rewrite returned_kset.
        unfold fresh_obj, allocated. cbn. rewrite Hl, bool_decide_eq_true_2 by eauto.
        simpl. apply list_elem_of_here.
  - eexists _, _. split; [reflexivity|]. cbn [mem trace].
    split.
    { unfold same_globals. cbn [mem].
      destruct (torn_down_globals p (init_kobj name t None (fresh_obj None (mem s)))
                  (linked p name t None (fresh_obj None (mem s))
                          (allocated p None (mem s)))) as (-> & -> & ->).
      apply (linked_globals p name t None _ (allocated p None (mem s))). }
    split; [|split; [|discriminate]].
    + intros [l Hl]. unfold kset_registered. cbn [mem].
      rewrite torn_down_kset, linked_kset. unfold allocated. fields. rewrite Hl.
      destruct (_ && _); simpl; eauto.
    + intros q Hq. pose proof (Hfresh q Hq) as Hne.
      split; [discriminate|]. destruct Hq as (o & Ho & Hk). split; [|split].
      * exists (detach_from p o). cbn [mem].
        rewrite torn_down_lookup_ne, heap_linked by exact Hne.
        rewrite lookup_insert_ne by exact Hne.
        unfold allocated. fields. rewrite lookup_insert_ne by exact Hne.
        rewrite Ho, detach_from_kref. auto.
      * unfold roots. cbn [mem]. rewrite torn_down_kset, linked_kset. intros Hroot.
        apply elem_of_kset_filter; [exact Hne|]. apply elem_of_kset_cons, Hroot.
      * cbn [trace]. rewrite !releases_cons.
        rewrite bool_decide_eq_false_2 by congruence.
        rewrite bool_decide_eq_false_2 by discriminate. reflexivity.
Qed.

Lemma kept_trans (q : kptr) (s1 s2 s3 : sys) :
  kept q s1 s2 → kept q s2 s3 → kept q s1 s3.
Proof.
  intros (_ & Hr1 & Hn1) (Hl2 & Hr2 & Hn2).
  split; [exact Hl2|]. split; [auto|congruence].
Qed.

(** Dropping a reference of a live node, when it has a defined result,
    leaves the static pointers and every other live node alone. *)
Lemma put_frame (h : kptr) (s s' : sys) :
  live h s →
  kobject_put (Some h) s = Some (tt, s') →
  same_globals s s'
  ∧ (kset_registered s → kset_registered s')
  ∧ (∀ q, q ≠ h → live q s → kept q s s').
Proof.
  intros (o & Ho & Hk). rewrite kobject_put_eq, Ho.
  rewrite bool_decide_eq_false_2 by lia. case_bool_decide as H1.
  - rewrite kobject_cleanup_eq. cbv zeta.
    assert (Hrel : ∀ q e, q ≠ h → e = EvRelease h ∨ e = EvDel h →
              bool_decide (e = EvRelease q) = false).
    { intros q e Hne [-> | ->]; apply bool_decide_eq_false_2; congruence. }
    destruct (k_ktype (kobj o)); [| |discriminate]; intros [= <-]; cbn [mem trace].
    + split; [apply unlinked_globals|]. split.
      * intros [l Hl]. unfold kset_registered. cbn [mem].
        rewrite unlinked_kset, Hl. simpl. eauto.
      * intros q Hne (oq & Hoq & Hkq). split; [|split].
        -- exists (detach_from h oq). cbn [mem].
           rewrite unlinked_lookup_ne, Hoq, detach_from_kref by congruence. auto.
        -- unfold roots. cbn [mem]. rewrite unlinked_kset.
           apply elem_of_kset_filter. congruence.
        -- cbn [trace]. rewrite releases_app_del. reflexivity.
    + split; [apply torn_down_globals|]. split.
      * intros [l Hl]. unfold kset_registered. cbn [mem].
        rewrite torn_down_kset, Hl. simpl. eauto.
      * intros q Hne (oq & Hoq & Hkq). split; [|split].
        -- exists (detach_from h oq). cbn [mem].
           rewrite torn_down_lookup_ne, Hoq, detach_from_kref by congruence. auto.
        -- unfold roots. cbn [mem]. rewrite torn_down_kset.
           apply elem_of_kset_filter. congruence.
        -- cbn [trace]. rewrite releases_cons, (Hrel q), releases_app_del by auto.
           reflexivity.
  - intros [= <-]. split; [repeat split|]. split; [auto|].
    intros q Hne (oq & Hoq & Hkq). split; [|split; [auto|reflexivity]].
    exists oq. cbn [mem heap set_heap]. rewrite lookup_insert_ne by congruence. auto.
Qed.

Lemma modify_run (f : kmem → kmem) (s : sys) :
  modify_mem f s = Some (tt, Sys (f (mem s)) (trace s)).
Proof. reflexivity. Qed.

Lemma get_mem_run (s : sys) : get_mem s = Some (mem s, s).
Proof. reflexivity. Qed.

Lemma health_error_run (s : sys) :
  btrfs_health (mem s) = None → btrfs_health_error s = Some (- EINVAL, s).
Proof.
  intros H. unfold btrfs_health_error, btrfs_kobject_destroy, btrfs_devices_error.
  rewrite bind_run, get_mem_run, H. reflexivity.
Qed.

Lemma info_error_run (s : sys) (h : kptr) :
  btrfs_info (mem s) = None → btrfs_health (mem s) = Some h →
  btrfs_info_error s =
  match kobject_put (Some h) s with
  | Some (_, s') => Some (- EINVAL, s')
  | None => None
  end.
Proof.
  intros Hi Hh.
  unfold btrfs_info_error, btrfs_health_error, btrfs_kobject_destroy,
    btrfs_devices_error.
  rewrite bind_run, get_mem_run, Hi, bind_run.
  change (kobject_put None s) with (Some (tt, s)). cbv iota beta.
  rewrite bind_run, get_mem_run, Hh, bind_run.
  destruct (kobject_put (Some h) s) as [[[] s']|]; reflexivity.
Qed.

Lemma kept_global (f : kmem → kmem) (q : kptr) (s : sys) :
  (∀ m, heap (f m) = heap m) → (∀ m, btrfs_kset (f m) = btrfs_kset m) →
  live q s → kept q s (Sys (f (mem s)) (trace s)).
Proof.
  intros Hh Hk (o & Ho & Hc). split; [|split; [|reflexivity]].
  - exists o. cbn [mem]. rewrite Hh. auto.
  - unfold roots. cbn [mem]. rewrite Hk. auto.
Qed.

Lemma registered_global (f : kmem → kmem) (s : sys) :
  (∀ m, btrfs_kset (f m) = btrfs_kset m) →
  kset_registered s → kset_registered (Sys (f (mem s)) (trace s)).
Proof. intros Hk. unfold kset_registered. cbn [mem]. rewrite Hk. auto. Qed.

(** Whenever the bootstrap returns, it returns 0 or [-EINVAL] with the kset
    still registered, and a [devices] node that it created is still a live
    root at the end and its release callback has not run: no path destroys
    it. *)
Lemma bootstrap_never_destroys_devices (E : env) (s : sys) (r : Z) (s' : sys) :
  kset_registered s →
  btrfs_static_init_sysfs E s = Some (r, s') →
  (r = 0 ∨ r = - EINVAL)
  ∧ kset_registered s'
  ∧ (∀ d, btrfs_devices (mem s') = Some d →
       live d s' ∧ d ∈ roots (mem s')
       ∧ releases d (trace s') = releases d (trace s)).
Proof.
  intros Hreg.
  destruct (create_root_frame E "devices" btrfs_ktype_devices s)
    as (d & s1 & H1 & _ & R1 & _ & N1).
  unfold btrfs_static_init_sysfs. rewrite bind_run, H1, bind_run, modify_run.
  cbv iota beta.
  destruct d as [pd|]; cycle 1.
  { rewrite bool_decide_eq_true_2 by reflexivity. intros [= <- <-].
    split; [auto|].
    split; [apply (registered_global (set_btrfs_devices None)); auto|].
    intros d Hd. discriminate Hd. }
  rewrite bool_decide_eq_false_2 by discriminate.
  destruct (N1 pd eq_refl) as [Lpd Rpd]. specialize (Rpd Hreg).
  assert (Tpd : releases pd (trace s1) = releases pd (trace s)).
  { apply created_node in H1 as (_ & _ & ->).
    rewrite releases_cons, bool_decide_eq_false_2 by discriminate. reflexivity. }
  assert (Hfinal : ∀ sf, kept pd s1 sf → btrfs_devices (mem sf) = Some pd →
            ∀ d, btrfs_devices (mem sf) = Some d →
              live d sf ∧ d ∈ roots (mem sf)
              ∧ releases d (trace sf) = releases d (trace s)).
  { intros sf (Hl & Hr & Hn) Hd d Hd'. rewrite Hd in Hd'. injection Hd' as <-.
    split; [exact Hl|]. split; [auto|congruence]. }
  pose proof (kept_global (set_btrfs_devices (Some pd)) pd s1
                (λ _, eq_refl) (λ _, eq_refl) Lpd) as Kd.
  pose proof (registered_global (set_btrfs_devices (Some pd)) s1
                (λ _, eq_refl) (R1 Hreg)) as Hreg1.
  set (s1' := Sys (set_btrfs_devices (Some pd) (mem s1)) (trace s1)) in *.
  destruct (create_root_frame E "health" btrfs_ktype_health s1')
    as (h & s2 & H2 & (Gd2 & _ & _) & R2 & K2 & N2).
  rewrite bind_run, H2, bind_run, modify_run. cbv iota beta.
  destruct (K2 pd (proj1 Kd)) as [Hne2 Kpd2].
  pose proof (kept_trans _ _ _ _ Kd Kpd2) as Kd2.
  pose proof (kept_global (set_btrfs_health h) pd s2
                (λ _, eq_refl) (λ _, eq_refl) (proj1 Kpd2)) as Kh.
  pose proof (kept_trans _ _ _ _ Kd2 Kh) as Kd2'.
  pose proof (registered_global (set_btrfs_health h) s2
                (λ _, eq_refl) (R2 Hreg1)) as Hreg2.
  set (s2' := Sys (set_btrfs_health h (mem s2)) (trace s2)) in *.
  assert (Hdev2 : btrfs_devices (mem s2') = Some pd) by exact Gd2.
  destruct h as [ph|]; cycle 1.
  { rewrite bool_decide_eq_true_2 by reflexivity.
    rewrite health_error_run by reflexivity. intros [= <- <-].
    split; [auto|]. split; [exact Hreg2|].
    apply Hfinal; assumption. }
  rewrite bool_decide_eq_false_2 by discriminate.
  destruct (N2 ph eq_refl) as [Lph _].
  pose proof (kept_global (set_btrfs_health (Some ph)) ph s2
                (λ _, eq_refl) (λ _, eq_refl) Lph) as Khh.
  fold s2' in Khh.
  destruct (create_root_frame E "info" btrfs_ktype_info s2')
    as (i & s3 & H3 & (Gd3 & Gh3 & _) & R3 & K3 & N3).
  rewrite bind_run, H3, bind_run, modify_run. cbv iota beta.
  destruct (K3 pd (proj1 Kd2')) as [_ Kpd3].
  destruct (K3 ph (proj1 Khh)) as [_ Kph3].
  pose proof (kept_trans _ _ _ _ Kd2' Kpd3) as Kd3.
  pose proof (kept_global (set_btrfs_info i) pd s3
                (λ _, eq_refl) (λ _, eq_refl) (proj1 Kpd3)) as Ki.
  pose proof (kept_trans _ _ _ _ Kd3 Ki) as Kd3'.
  pose proof (kept_global (set_btrfs_info i) ph s3
                (λ _, eq_refl) (λ _, eq_refl) (proj1 Kph3)) as Kih.
  pose proof (registered_global (set_btrfs_info i) s3
                (λ _, eq_refl) (R3 Hreg2)) as Hreg3.
  set (s3' := Sys (set_btrfs_info i (mem s3)) (trace s3)) in *.
  assert (Hdev3 : btrfs_devices (mem s3') = Some pd)
    by (etransitivity; [exact Gd3 | exact Hdev2]).
  destruct i as [pi|].
  { rewrite bool_decide_eq_false_2 by discriminate. intros [= <- <-].
    split; [auto|]. split; [exact Hreg3|].
    apply Hfinal; assumption. }
  rewrite bool_decide_eq_true_2 by reflexivity.
  rewrite (info_error_run s3' ph) by (try reflexivity; exact Gh3).
  destruct (kobject_put (Some ph) s3') as [[[] s4]|] eqn:H4; [|discriminate].
  intros [= <- <-].
  destruct (put_frame ph s3' s4 (proj1 Kih) H4) as ((Gd4 & _ & _) & R4 & K4).
  split; [auto|]. split; [exact (R4 Hreg3)|].
  apply Hfinal.
  - apply (kept_trans _ _ _ _ Kd3'), K4; [congruence | exact (proj1 Kd3')].
  - etransitivity; [exact Gd4 | exact Hdev3].
Qed.

(** C10: once [kset_create_and_add] has succeeded, [btrfs_init_sysfs] is the
    bootstrap run on the memory with the fresh kset in [btrfs_kset], and
    nothing after it.  Whenever it returns with the bootstrap failed, the
    caller gets its [-EINVAL] and the kset is still registered. *)
Theorem init_failure_keeps_kset (E : env) (s : sys) :
  kset_create_fails E (mem s) = false →
  btrfs_init_sysfs E s
    = btrfs_static_init_sysfs E (Sys (set_btrfs_kset (Some []) (mem s)) (trace s))
  ∧ (∀ r s', btrfs_init_sysfs E s = Some (r, s') → r ≠ 0 →
       r = - EINVAL ∧ kset_registered s').
Proof.
  intros Hk.
  assert (Heq : btrfs_init_sysfs E s
    = btrfs_static_init_sysfs E (Sys (set_btrfs_kset (Some []) (mem s)) (trace s))).
  { unfold btrfs_init_sysfs, kset_create_and_add. mred. rewrite Hk. reflexivity. }
  assert (Hreg : kset_registered (Sys (set_btrfs_kset (Some []) (mem s)) (trace s)))
    by (unfold kset_registered; cbn; eauto).
  split; [exact Heq|].
  intros r s' Hrun Hr. rewrite Heq in Hrun.
  apply static_init_keeps_kset in Hrun as [Hreg' [H0 | HE]];
    [contradiction | auto | exact Hreg].
Qed.

Lemma init_failure_keeps_kset_witness :
  btrfs_init_sysfs (refusing "health") boot
    = Some (- EINVAL, after_init_health_refused)
  ∧ kset_registered after_init_health_refused
  ∧ btrfs_kset (mem after_init_health_refused) = Some [1%positive].
Proof.
  assert (Hrun : btrfs_init_sysfs (refusing "health") boot
                 = Some (- EINVAL, after_init_health_refused))
    by (vm_compute; reflexivity).
  destruct (init_failure_keeps_kset (refusing "health") boot eq_refl) as (_ & H).
  destruct (H _ _ Hrun ltac:(discriminate)) as [_ Hreg].
  split; [exact Hrun|]. split; [exact Hreg|]. vm_compute. reflexivity.
Defined.

(** C1 fails on the code: the renderer refuses [health] after [devices] was
    created.  The jump goes to [btrfs_health_error], which destroys
    [btrfs_health], a null pointer at that point, and falls through to the
    return; [devices] is never destroyed.  The bootstrap returns [-EINVAL]
    and [devices] is still the one root, allocated, published, with its
    reference, and the release callback has not run on it. *)
Theorem bootstrap_failure_leaves_devices :
  btrfs_static_init_sysfs (refusing "health") registered
    = Some (- EINVAL, after_health_refused)
  ∧ roots (mem after_health_refused) = [1%positive]
  ∧ heap (mem after_health_refused) !! 1%positive
    = Some (BtrfsKobject (Kobject "devices" 1 None true KtDead true) 0)
  ∧ btrfs_devices (mem after_health_refused) = Some 1%positive
  ∧ btrfs_health (mem after_health_refused) = None
  ∧ trace after_health_refused
    = [EvRelease 2%positive; EvAdd 2%positive "health" (-17);
       EvAdd 1%positive "devices" 0]
  ∧ releases 1%positive (trace after_health_refused) = 0%nat.
Proof. conjuncts; vm_compute; reflexivity. Qed.

(** When the renderer refuses [info], [btrfs_info_error] destroys the null
    [btrfs_info] and then [health], whose type pointer dangles since its
    creation returned: the bootstrap has no defined result. *)
Lemma bootstrap_info_refused_undefined :
  btrfs_static_init_sysfs (refusing "info") registered = None.
Proof. vm_compute. reflexivity. Qed.

(** * Further properties of the code *)

(** ** One creation, exactly *)

Lemma blocks_torn_down (p : kptr) (o : btrfs_kobject) (m : kmem) :
  dom (heap (torn_down p o m)) = dom (heap m) ∖ {[p]}.
Proof.
  unfold torn_down, unlinked. fields.
  rewrite dom_delete_L, dom_fmap_L, heap_kset_leave. fields.
  rewrite dom_insert_L. set_solver.
Qed.

Lemma blocks_linked (p : kptr) (name : string) (t : kobj_type) (parent : option kptr)
    (o : btrfs_kobject) (m : kmem) :
  dom (heap (linked p name t parent o m)) = {[p]} ∪ dom (heap m).
Proof. rewrite heap_linked. apply dom_insert_L. Qed.

Lemma blocks_published (p : kptr) (name : string) (t : kobj_type)
    (parent : option kptr) (o : btrfs_kobject) (m : kmem) :
  dom (heap (published p name t parent o m)) = {[p]} ∪ dom (heap m).
Proof.
  unfold published. fields. rewrite dom_insert_L, blocks_linked. set_solver.
Qed.

Lemma blocks_returned (p : kptr) (name : string) (t : kobj_type)
    (parent : option kptr) (o : btrfs_kobject) (m : kmem) :
  dom (heap (returned p name t parent o m)) = {[p]} ∪ dom (heap m).
Proof.
  unfold returned. fields. rewrite dom_insert_L, blocks_published. set_solver.
Qed.

Lemma blocks_allocated (p : kptr) (parent : option kptr) (m : kmem) :
  dom (heap (allocated p parent m)) = {[p]} ∪ dom (heap m).
Proof. unfold allocated. fields. apply dom_insert_L. Qed.

Lemma allocated_globals (p : kptr) (parent : option kptr) (m : kmem) :
  btrfs_devices (allocated p parent m) = btrfs_devices m
  ∧ btrfs_health (allocated p parent m) = btrfs_health m
  ∧ btrfs_info (allocated p parent m) = btrfs_info m.
Proof. unfold allocated. auto. Qed.

Lemma detach_from_ptr (p : kptr) (o : btrfs_kobject) :
  ptr (detach_from p o) = ptr o.
Proof. unfold detach_from. destruct (is_child_of p o); reflexivity. Qed.

(** X1: what one call of [btrfs_kobject_create] does to the memory.  The
    static pointers are never touched.  A call that returns a node has
    allocated exactly one block, one that was not in use, has left every
    other block exactly as it was, and has made one publish request and
    nothing else.  A call that returns null has not leaked: the allocated
    blocks are the same as before, each with its count and payload. *)
Theorem create_footprint (E : env) (name : string) (t : kobj_type)
    (parent : option kptr) (s : sys) (r : option kptr) (s' : sys) :
  btrfs_kobject_create E name t parent s = Some (r, s') →
  same_globals s s'
  ∧ match r with
    | Some p =>
      (p ∉ blocks s) ∧ blocks s' = {[p]} ∪ blocks s
      ∧ (∀ q, q ≠ p → heap (mem s') !! q = heap (mem s) !! q)
      ∧ trace s' = EvAdd p name 0 :: trace s
    | None =>
      blocks s' = blocks s
      ∧ (∀ q o, heap (mem s) !! q = Some o →
           ∃ o', heap (mem s') !! q = Some o'
                 ∧ k_kref (kobj o') = k_kref (kobj o) ∧ ptr o' = ptr o)
    end.
Proof.
  rewrite btrfs_kobject_create_eq.
  destruct (kzalloc_fails E (mem s)).
  { intros [= <- <-]. split; [repeat split|]. split; [reflexivity|]. eauto. }
  cbv zeta. set (p := fresh (dom (heap (mem s)))).
  assert (Hp : p ∉ dom (heap (mem s))) by apply is_fresh.
  destruct (check_live _ _); [|discriminate].
  case_bool_decide as Hr; intros [= <- <-]; cbn [mem trace].
  - split.
    { apply (returned_globals p name t parent _ (allocated p parent (mem s))). }
    split; [exact Hp|]. split; [|split].
    + unfold blocks. cbn [mem]. rewrite blocks_returned, blocks_allocated.
      set_solver.
    + intros q Hq. rewrite returned_lookup_ne by congruence.
      unfold allocated. fields. apply lookup_insert_ne. congruence.
    + rewrite Hr. reflexivity.
  - split.
    { unfold same_globals. cbn [mem].
      destruct (torn_down_globals p (init_kobj name t parent (fresh_obj parent (mem s)))
                  (linked p name t parent (fresh_obj parent (mem s))
                          (allocated p parent (mem s)))) as (-> & -> & ->).
      apply (linked_globals p name t parent _ (allocated p parent (mem s))). }
    split.
    + unfold blocks. cbn [mem].
      rewrite blocks_torn_down, blocks_linked, blocks_allocated. set_solver.
    + intros q o Ho.
      assert (Hne : p ≠ q).
      { intros <-. apply Hp, elem_of_dom. eauto. }
      exists (detach_from p o).
      rewrite torn_down_lookup_ne, heap_linked by exact Hne.
      rewrite lookup_insert_ne by exact Hne.
      unfold allocated. fields. rewrite lookup_insert_ne by exact Hne.
      rewrite Ho, detach_from_kref, detach_from_ptr. auto.
Qed.

Lemma create_footprint_witness :
  blocks with_devices = {[ 1%positive ]} ∪ blocks registered
  ∧ blocks with_refused = blocks registered.
Proof.
  assert (H1 : btrfs_kobject_create (refusing "") "devices" btrfs_ktype_devices None
                 registered = Some (Some 1%positive, with_devices))
    by (vm_compute; reflexivity).
  assert (H2 : btrfs_kobject_create (refusing "health") "health" btrfs_ktype_health
                 None registered = Some (None, with_refused))
    by (vm_compute; reflexivity).
  split.
  - exact (proj1 (proj2 (proj2 (create_footprint _ _ _ _ _ _ _ H1)))).
  - exact (proj1 (proj2 (create_footprint _ _ _ _ _ _ _ H2))).
Defined.

(** ** The ways through the bootstrap *)

Lemma create_root_globals (E : env) (name : string) (t : kobj_type) (s : sys)
    (r : option kptr) (s' : sys) :
  btrfs_kobject_create E name t None s = Some (r, s') → same_globals s s'.
Proof.
  intros H. destruct (create_root_frame E name t s) as (r0 & s0 & H0 & G & _).
  rewrite H in H0. injection H0 as <- <-. exact G.
Qed.

(** The four ways through [btrfs_static_init_sysfs]: the first, the second or
    the third creation fails, or none does. *)
Lemma static_init_cases (E : env) (s : sys) (r : Z) (s' : sys) :
  btrfs_static_init_sysfs E s = Some (r, s') →
  (∃ s1,
      btrfs_kobject_create E "devices" btrfs_ktype_devices None s = Some (None, s1)
      ∧ r = - EINVAL ∧ s' = set_global (set_btrfs_devices None) s1)
  ∨ (∃ d s1 s2,
      btrfs_kobject_create E "devices" btrfs_ktype_devices None s = Some (Some d, s1)
      ∧ btrfs_kobject_create E "health" btrfs_ktype_health None
          (set_global (set_btrfs_devices (Some d)) s1) = Some (None, s2)
      ∧ r = - EINVAL ∧ s' = set_global (set_btrfs_health None) s2)
  ∨ (∃ d s1 h s2 s3,
      btrfs_kobject_create E "devices" btrfs_ktype_devices None s = Some (Some d, s1)
      ∧ btrfs_kobject_create E "health" btrfs_ktype_health None
          (set_global (set_btrfs_devices (Some d)) s1) = Some (Some h, s2)
      ∧ btrfs_kobject_create E "info" btrfs_ktype_info None
          (set_global (set_btrfs_health (Some h)) s2) = Some (None, s3)
      ∧ kobject_put (Some h) (set_global (set_btrfs_info None) s3) = Some (tt, s')
      ∧ r = - EINVAL)
  ∨ (∃ d s1 h s2 i s3,
      btrfs_kobject_create E "devices" btrfs_ktype_devices None s = Some (Some d, s1)
      ∧ btrfs_kobject_create E "health" btrfs_ktype_health None
          (set_global (set_btrfs_devices (Some d)) s1) = Some (Some h, s2)
      ∧ btrfs_kobject_create E "info" btrfs_ktype_info None
          (set_global (set_btrfs_health (Some h)) s2) = Some (Some i, s3)
      ∧ r = 0 ∧ s' = set_global (set_btrfs_info (Some i)) s3).
Proof.
  unfold btrfs_static_init_sysfs. rewrite bind_run.
  destruct (btrfs_kobject_create E "devices" btrfs_ktype_devices None s)
    as [[d s1]|] eqn:H1; [|discriminate].
  rewrite bind_run, modify_run. cbv iota beta.
  change (Sys (set_btrfs_devices d (mem s1)) (trace s1))
    with (set_global (set_btrfs_devices d) s1).
  destruct d as [d|]; cycle 1.
  { rewrite bool_decide_eq_true_2 by reflexivity. intros [= <- <-]. left. eauto. }
  rewrite bool_decide_eq_false_2 by discriminate. rewrite bind_run.
  destruct (btrfs_kobject_create E "health" btrfs_ktype_health None _)
    as [[h s2]|] eqn:H2; [|discriminate].
  rewrite bind_run, modify_run. cbv iota beta.
  change (Sys (set_btrfs_health h (mem s2)) (trace s2))
    with (set_global (set_btrfs_health h) s2).
  destruct h as [h|]; cycle 1.
  { rewrite bool_decide_eq_true_2 by reflexivity.
    rewrite health_error_run by reflexivity. intros [= <- <-].
    right. left. eauto 10. }
  rewrite bool_decide_eq_false_2 by discriminate. rewrite bind_run.
  destruct (btrfs_kobject_create E "info" btrfs_ktype_info None _)
    as [[i s3]|] eqn:H3; [|discriminate].
  rewrite bind_run, modify_run. cbv iota beta.
  change (Sys (set_btrfs_info i (mem s3)) (trace s3))
    with (set_global (set_btrfs_info i) s3).
  destruct i as [i|].
  { rewrite bool_decide_eq_false_2 by discriminate. intros [= <- <-].
    right. right. right. eauto 12. }
  rewrite bool_decide_eq_true_2 by reflexivity.
  destruct (create_root_globals _ _ _ _ _ _ H3) as (_ & Gh & _).
  rewrite (info_error_run _ h) by (try reflexivity; exact Gh).
  destruct (kobject_put (Some h) _) as [[[] s4]|] eqn:H4; [|discriminate].
  intros [= <- <-]. right. right. left. eauto 12.
Qed.

Ltac globals_red :=
  unfold set_global in *;
  cbn [mem trace heap btrfs_kset btrfs_devices btrfs_health btrfs_info
       set_btrfs_devices set_btrfs_health set_btrfs_info set_btrfs_kset] in *.

(** A top-level creation that succeeds with the kset registered, in full. *)
Lemma create_root_success (E : env) (name : string) (t : kobj_type) (s : sys)
    (p : kptr) (s' : sys) :
  kset_registered s →
  btrfs_kobject_create E name t None s = Some (Some p, s') →
  heap (mem s) !! p = None
  ∧ heap (mem s') !! p = Some (root_node name)
  ∧ (∀ q, q ≠ p → heap (mem s') !! q = heap (mem s) !! q)
  ∧ roots (mem s') = p :: roots (mem s)
  ∧ kset_registered s'
  ∧ same_globals s s'
  ∧ trace s' = EvAdd p name 0 :: trace s
  ∧ blocks s' = {[p]} ∪ blocks s.
Proof.
  intros [l Hl] H. pose proof (create_root_globals _ _ _ _ _ _ H) as G.
  apply created_node in H as (-> & Hmem & Htr).
  set (p := fresh (dom (heap (mem s)))) in *.
  assert (Hk : btrfs_kset (mem s') = Some (p :: l)).
  { rewrite Hmem, returned_kset. unfold fresh_obj, allocated. cbn.
    rewrite Hl, bool_decide_eq_true_2 by eauto. reflexivity. }
  split; [apply fresh_not_allocated|]. split.
  { rewrite Hmem, returned_lookup. unfold fresh_obj, root_node. cbn.
    rewrite Hl, bool_decide_eq_true_2 by eauto. reflexivity. }
  split.
  { intros q Hq. rewrite Hmem, returned_lookup_ne by congruence.
    unfold allocated. fields. apply lookup_insert_ne. congruence. }
  split; [unfold roots; rewrite Hk, Hl; reflexivity|].
  split; [unfold kset_registered; rewrite Hk; eauto|].
  split; [exact G|]. split; [exact Htr|].
  unfold blocks. rewrite Hmem, blocks_returned, blocks_allocated.
  apply (anti_symm (⊆)); intros x; rewrite !elem_of_union; tauto.
Qed.

(** The state a bootstrap that returns 0 ends in. *)
Lemma static_init_success (E : env) (s s' : sys) :
  kset_registered s →
  btrfs_static_init_sysfs E s = Some (0, s') →
  ∃ d h i,
    (btrfs_devices (mem s') = Some d ∧ btrfs_health (mem s') = Some h
     ∧ btrfs_info (mem s') = Some i)
    ∧ (d ≠ h ∧ d ≠ i ∧ h ≠ i)
    ∧ ((d ∉ blocks s) ∧ (h ∉ blocks s) ∧ (i ∉ blocks s))
    ∧ (heap (mem s') !! d = Some (root_node "devices")
       ∧ heap (mem s') !! h = Some (root_node "health")
       ∧ heap (mem s') !! i = Some (root_node "info"))
    ∧ roots (mem s') = i :: h :: d :: roots (mem s)
    ∧ blocks s' = {[i]} ∪ ({[h]} ∪ ({[d]} ∪ blocks s))
    ∧ trace s' = EvAdd i "info" 0 :: EvAdd h "health" 0 :: EvAdd d "devices" 0
                 :: trace s.
Proof.
  intros Hreg Hrun.
  apply static_init_cases in Hrun
    as [(? & _ & Hr & _) | [(? & ? & ? & _ & _ & Hr & _)
       | [(? & ? & ? & ? & ? & _ & _ & _ & _ & Hr)
       | (d & s1 & h & s2 & i & s3 & H1 & H2 & H3 & _ & ->)]]];
    try (exfalso; unfold EINVAL in Hr; lia).
  apply (create_root_success _ _ _ _ _ _ Hreg) in H1
    as (F1 & L1 & O1 & R1 & K1 & (Gd1 & Gh1 & Gi1) & T1 & B1).
  apply create_root_success in H2
    as (F2 & L2 & O2 & R2 & K2 & (Gd2 & Gh2 & Gi2) & T2 & B2); [|exact K1].
  apply create_root_success in H3
    as (F3 & L3 & O3 & R3 & K3 & (Gd3 & Gh3 & Gi3) & T3 & B3); [|exact K2].
  unfold blocks, roots in *. globals_red.
  assert (Hdh : d ≠ h) by (intros ->; rewrite F2 in L1; discriminate).
  assert (Hhi : h ≠ i) by (intros ->; rewrite F3 in L2; discriminate).
  assert (Hdi : d ≠ i).
  { intros ->. rewrite O2 in F3 by congruence. rewrite F3 in L1. discriminate. }
  exists d, h, i.
  split; [repeat split; congruence|].
  split; [auto|]. split.
  { rewrite !not_elem_of_dom. split; [exact F1|]. split.
    - rewrite <- (O1 h) by congruence. exact F2.
    - rewrite <- (O1 i), <- (O2 i) by congruence. exact F3. }
  split.
  { split; [rewrite O3, O2 by congruence; exact L1|].
    split; [rewrite O3 by congruence; exact L2|exact L3]. }
  split; [rewrite R3, R2, R1; reflexivity|].
  split; [rewrite B3, B2, B1; reflexivity|].
  rewrite T3, T2, T1. reflexivity.
Qed.

Lemma root_node_at (s : sys) (p : kptr) (name : string) :
  heap (mem s) !! p = Some (root_node name) → root_at s p name.
Proof. intros H. exists (root_node name). repeat split. exact H. Qed.

(** X3: a bootstrap that returns 0 has built the whole tree.  The three
    static pointers hold three different addresses; at each sits the node of
    its name, published, with one reference, no parent and the zero payload;
    the members of the kset are these three and those that were there;
    exactly these three blocks were allocated; and the renderer was asked for
    [devices], [health] and [info], in this order, and for nothing else. *)
Theorem bootstrap_success_tree (E : env) (s s' : sys) :
  kset_registered s →
  btrfs_static_init_sysfs E s = Some (0, s') →
  ∃ d h i,
    btrfs_devices (mem s') = Some d ∧ btrfs_health (mem s') = Some h
    ∧ btrfs_info (mem s') = Some i
    ∧ d ≠ h ∧ d ≠ i ∧ h ≠ i
    ∧ root_at s' d "devices" ∧ root_at s' h "health" ∧ root_at s' i "info"
    ∧ (∀ q, q ∈ roots (mem s') ↔ q = d ∨ q = h ∨ q = i ∨ q ∈ roots (mem s))
    ∧ blocks s' = {[i]} ∪ ({[h]} ∪ ({[d]} ∪ blocks s))
    ∧ trace s' = EvAdd i "info" 0 :: EvAdd h "health" 0 :: EvAdd d "devices" 0
                 :: trace s.
Proof.
  intros Hreg Hrun.
  destruct (static_init_success E s s' Hreg Hrun)
    as (d & h & i & (Hd & Hh & Hi) & (Hdh & Hdi & Hhi) & _
        & (Ld & Lh & Li) & Hroots & Hblocks & Htrace).
  exists d, h, i.
  split; [exact Hd|]. split; [exact Hh|]. split; [exact Hi|].
  split; [exact Hdh|]. split; [exact Hdi|]. split; [exact Hhi|].
  split; [apply root_node_at, Ld|]. split; [apply root_node_at, Lh|].
  split; [apply root_node_at, Li|].
  split; [|split; [exact Hblocks|exact Htrace]].
  intros q. rewrite Hroots, !elem_of_cons. tauto.
Qed.

Lemma bootstrap_success_tree_witness :
  btrfs_static_init_sysfs (refusing "") registered = Some (0, with_roots)
  ∧ btrfs_devices (mem with_roots) = Some 1%positive
  ∧ root_at with_roots 1%positive "devices"
  ∧ 1%positive ∈ roots (mem with_roots).
Proof.
  assert (Hrun : btrfs_static_init_sysfs (refusing "") registered
                 = Some (0, with_roots)) by (vm_compute; reflexivity).
  destruct (bootstrap_success_tree (refusing "") registered with_roots)
    as (d & h & i & Hd & _ & _ & _ & _ & _ & Rd & _ & _ & Hroots & _).
  - unfold kset_registered. vm_compute. eauto.
  - exact Hrun.
  - assert (Hd' : btrfs_devices (mem with_roots) = Some 1%positive)
      by (vm_compute; reflexivity).
    rewrite Hd' in Hd. injection Hd as <-.
    split; [exact Hrun|]. split; [exact Hd'|]. split; [exact Rd|].
    apply Hroots. left. reflexivity.
Defined.

(** ** Teardown *)

Lemma put_root_node (p : kptr) (name : string) (s : sys) :
  heap (mem s) !! p = Some (root_node name) → kobject_put (Some p) s = None.
Proof.
  intros H. rewrite kobject_put_eq, H.
  change (k_kref (kobj (root_node name))) with 1.
  rewrite bool_decide_eq_false_2 by lia. rewrite bool_decide_eq_true_2 by lia.
  rewrite kobject_cleanup_eq. reflexivity.
Qed.

(** X4: the teardown after a bootstrap that returned 0 has no defined result.
    [btrfs_exit_sysfs] first destroys [btrfs_devices]; the node has the one
    reference its creation left, so the drop is the last one and reads the
    type through the pointer [btrfs_kobject_create] stored, the address of
    its own parameter. *)
Theorem exit_after_init_undefined (E : env) (s s1 : sys) :
  kset_create_fails E (mem s) = false →
  btrfs_init_sysfs E s = Some (0, s1) →
  ∃ d, btrfs_devices (mem s1) = Some d
       ∧ root_at s1 d "devices"
       ∧ btrfs_kobject_destroy (Some d) s1 = None
       ∧ btrfs_exit_sysfs s1 = None.
Proof.
  intros Hk Hrun.
  assert (Heq : btrfs_init_sysfs E s
    = btrfs_static_init_sysfs E (Sys (set_btrfs_kset (Some []) (mem s)) (trace s))).
  { unfold btrfs_init_sysfs, kset_create_and_add. mred. rewrite Hk. reflexivity. }
  rewrite Heq in Hrun. apply static_init_success in Hrun
    as (d & h & i & (Hd & Hh & Hi) & _ & _ & (Ld & Lh & Li) & _);
    [|unfold kset_registered; cbn; eauto].
  exists d. split; [exact Hd|]. split; [apply root_node_at, Ld|].
  pose proof (put_root_node d "devices" s1 Ld) as Hput.
  split; [exact Hput|].
  unfold btrfs_exit_sysfs, btrfs_kobject_destroy.
  rewrite bind_run, get_mem_run. cbv beta iota. rewrite Hd, Hh, Hi.
  rewrite bind_run, Hput. reflexivity.
Qed.

Lemma exit_after_init_undefined_witness :
  btrfs_init_sysfs (refusing "") boot = Some (0, with_roots)
  ∧ btrfs_kobject_destroy (Some 1%positive) with_roots = None
  ∧ btrfs_exit_sysfs with_roots = None.
Proof.
  assert (Hrun : btrfs_init_sysfs (refusing "") boot = Some (0, with_roots))
    by (vm_compute; reflexivity).
  destruct (exit_after_init_undefined (refusing "") boot with_roots eq_refl Hrun)
    as (d & Hd & _ & Hdestroy & Hexit).
  assert (Hd' : btrfs_devices (mem with_roots) = Some 1%positive)
    by (vm_compute; reflexivity).
  rewrite Hd' in Hd. injection Hd as <-.
  split; [exact Hrun|]. split; [exact Hdestroy|exact Hexit].
Defined.

(** ** Failures of the bootstrap *)

(** What a creation that returns null leaves of the blocks that were
    allocated. *)
Lemma create_failure_keeps (E : env) (name : string) (t : kobj_type)
    (parent : option kptr) (s s' : sys) :
  btrfs_kobject_create E name t parent s = Some (None, s') →
  dom (heap (mem s')) = dom (heap (mem s))
  ∧ (∀ q, heap (mem s) !! q = None → heap (mem s') !! q = None)
  ∧ (∀ q o, heap (mem s) !! q = Some o →
       releases q (trace s') = releases q (trace s)
       ∧ ∃ o', heap (mem s') !! q = Some o'
               ∧ k_kref (kobj o') = k_kref (kobj o)
               ∧ k_ktype (kobj o') = k_ktype (kobj o)
               ∧ (k_parent (kobj o) = None → o' = o)).
Proof.
  rewrite btrfs_kobject_create_eq.
  destruct (kzalloc_fails E (mem s)).
  { intros [= <-]. split; [reflexivity|]. split; [auto|]. intros q o Ho.
    split; [reflexivity|]. exists o. auto. }
  cbv zeta. set (p := fresh (dom (heap (mem s)))).
  assert (Hp : p ∉ dom (heap (mem s))) by apply is_fresh.
  destruct (check_live _ _); [|discriminate].
  case_bool_decide as Hr; [discriminate|]. intros [= <-]. cbn [mem trace].
  split; [|split].
  - rewrite blocks_torn_down, blocks_linked, blocks_allocated.
    apply (anti_symm (⊆)); intros x;
      rewrite !elem_of_difference, !elem_of_union, !elem_of_singleton; [tauto|].
    intros Hx. split; [auto|]. intros ->. contradiction.
  - intros q Hq. destruct (decide (p = q)) as [<-|Hne]; [apply torn_down_lookup|].
    rewrite torn_down_lookup_ne, heap_linked by exact Hne.
    rewrite lookup_insert_ne by exact Hne. unfold allocated. fields.
    rewrite lookup_insert_ne, Hq by exact Hne. reflexivity.
  - intros q o Ho.
    assert (Hne : p ≠ q) by (intros <-; apply Hp, elem_of_dom; eauto).
    split.
    + rewrite !releases_cons.
      rewrite bool_decide_eq_false_2 by congruence.
      rewrite bool_decide_eq_false_2 by discriminate. reflexivity.
    + exists (detach_from p o).
      rewrite torn_down_lookup_ne, heap_linked by exact Hne.
      rewrite lookup_insert_ne by exact Hne.
      unfold allocated. fields. rewrite lookup_insert_ne by exact Hne.
      rewrite Ho, detach_from_kref. split; [reflexivity|]. split; [reflexivity|].
      split.
      * unfold detach_from. destruct (is_child_of p o); reflexivity.
      * intros Hpar. unfold detach_from, is_child_of.
        rewrite bool_decide_eq_false_2 by congruence. reflexivity.
Qed.

(** X5: a bootstrap in which [devices] and [health] are created and the
    creation of [info] fails has no defined result.  The jump goes to
    [btrfs_info_error], which destroys the null [btrfs_info] and then
    [btrfs_health]; the node has the one reference its creation left, so the
    drop is the last one and reads the type through the pointer
    [btrfs_kobject_create] stored, the address of its own parameter. *)
Theorem bootstrap_info_failure_undefined (E : env) (s : sys) (d h : kptr)
    (s1 s2 s3 : sys) :
  btrfs_kobject_create E "devices" btrfs_ktype_devices None s = Some (Some d, s1) →
  btrfs_kobject_create E "health" btrfs_ktype_health None
    (set_global (set_btrfs_devices (Some d)) s1) = Some (Some h, s2) →
  btrfs_kobject_create E "info" btrfs_ktype_info None
    (set_global (set_btrfs_health (Some h)) s2) = Some (None, s3) →
  btrfs_kobject_destroy (Some h) (set_global (set_btrfs_info None) s3) = None
  ∧ btrfs_static_init_sysfs E s = None.
Proof.
  intros H1 H2 H3.
  assert (Hput : kobject_put (Some h) (set_global (set_btrfs_info None) s3) = None).
  { apply created_node in H2 as (_ & Hmem & _).
    apply create_failure_keeps in H3 as (_ & _ & K3).
    destruct (K3 h (with_ktype KtDead (with_state_in_sysfs true
                (init_kobj "health" btrfs_ktype_health None
                   (fresh_obj None (mem (set_global (set_btrfs_devices (Some d)) s1)))))))
      as (_ & o' & L3 & Hk & Ht & _).
    { globals_red. rewrite Hmem. apply returned_lookup. }
    rewrite kobject_put_eq. globals_red. rewrite L3, Hk.
    cbn [kobj with_ktype with_state_in_sysfs init_kobj set_kobj k_kref].
    rewrite bool_decide_eq_false_2 by lia. rewrite bool_decide_eq_true_2 by lia.
    rewrite kobject_cleanup_eq, Ht. reflexivity. }
  split; [exact Hput|].
  destruct (btrfs_static_init_sysfs E s) as [[r s']|] eqn:Hrun; [|reflexivity].
  exfalso. apply static_init_cases in Hrun
    as [(? & H1' & _) | [(? & ? & ? & H1' & H2' & _)
       | [(? & ? & ? & ? & ? & H1' & H2' & H3' & Hput' & _)
       | (? & ? & ? & ? & ? & ? & H1' & H2' & H3' & _)]]];
    rewrite H1 in H1'; try discriminate; injection H1' as <- <-;
    rewrite H2 in H2'; try discriminate; injection H2' as <- <-;
    rewrite H3 in H3'; try discriminate; injection H3' as <-.
  rewrite Hput in Hput'. discriminate.
Qed.

Lemma bootstrap_info_failure_undefined_witness :
  btrfs_kobject_create (refusing "info") "devices" btrfs_ktype_devices None registered
    = Some (Some 1%positive, with_devices)
  ∧ btrfs_static_init_sysfs (refusing "info") registered = None.
Proof.
  assert (H1 : btrfs_kobject_create (refusing "info") "devices" btrfs_ktype_devices
                 None registered = Some (Some 1%positive, with_devices))
    by (vm_compute; reflexivity).
  split; [exact H1|].
  eapply (bootstrap_info_failure_undefined (refusing "info") registered
            1%positive 2%positive).
  - exact H1.
  - vm_compute. reflexivity.
  - vm_compute. reflexivity.
Defined.

(** ** The requests a bootstrap makes *)

Lemma publishes_app (t1 t2 : list event) :
  publishes (t1 ++ t2) = publishes t1 ++ publishes t2.
Proof.
  induction t1 as [|e t1 IH]; [reflexivity|].
  destruct e; simpl; rewrite IH; reflexivity.
Qed.

(** One creation adds at most one request, for its own name, and the answer
    is 0 exactly when a node comes back. *)
Lemma create_publishes (E : env) (name : string) (t : kobj_type)
    (parent : option kptr) (s : sys) (r : option kptr) (s' : sys) :
  btrfs_kobject_create E name t parent s = Some (r, s') →
  ∃ tr, trace s' = tr ++ trace s
        ∧ match r with
          | Some _ => publishes tr = [(name, 0)]
          | None => publishes tr = [] ∨ ∃ a, a ≠ 0 ∧ publishes tr = [(name, a)]
          end.
Proof.
  rewrite btrfs_kobject_create_eq.
  destruct (kzalloc_fails E (mem s)).
  { intros [= <- <-]. exists []. auto. }
  cbv zeta. destruct (check_live _ _); [|discriminate].
  case_bool_decide as Hr; intros [= <- <-]; cbn [trace].
  - eexists [_]. rewrite Hr. split; reflexivity.
  - eexists [_; _]. split; [reflexivity|]. right. eexists. split; [exact Hr|reflexivity].
Qed.

Lemma put_publishes (k : option kptr) (s s' : sys) :
  kobject_put k s = Some (tt, s') →
  ∃ tr, trace s' = tr ++ trace s ∧ publishes tr = [].
Proof.
  destruct k as [p|]; [|intros [= <-]; exists []; auto].
  rewrite kobject_put_eq. destruct (heap (mem s) !! p) as [o|]; [|discriminate].
  case_bool_decide; [discriminate|]. case_bool_decide.
  - rewrite kobject_cleanup_eq. cbv zeta.
    destruct (k_ktype (kobj o)), (k_state_in_sysfs (kobj o));
      try discriminate; intros [= <-]; cbn [trace app];
      [exists [EvDel p] | exists []
      | exists [EvRelease p; EvDel p] | exists [EvRelease p]]; auto.
  - intros [= <-]. exists []. auto.
Qed.

(** X6: the requests of a bootstrap.  Whatever the environment does, the
    renderer is asked for an initial part of [devices], [health], [info], in
    this order; every answer but the last is 0, so no node is requested after
    a refusal; and the bootstrap returns 0 exactly when all three were
    requested and accepted. *)
Theorem bootstrap_publish_order (E : env) (s : sys) (r : Z) (s' : sys) :
  btrfs_static_init_sysfs E s = Some (r, s') →
  ∃ tr, trace s' = tr ++ trace s
        ∧ rev (publishes tr).*1 `prefix_of` ["devices"; "health"; "info"]
        ∧ Forall (λ x, x.2 = 0) (tail (publishes tr))
        ∧ (r = 0 ↔ publishes tr = [("info", 0); ("health", 0); ("devices", 0)]).
Proof.
  intros Hrun.
  apply static_init_cases in Hrun
    as [(s1 & H1 & -> & ->) | [(d & s1 & s2 & H1 & H2 & -> & ->)
       | [(d & s1 & h & s2 & s3 & H1 & H2 & H3 & Hput & ->)
       | (d & s1 & h & s2 & i & s3 & H1 & H2 & H3 & -> & ->)]]].
  - apply create_publishes in H1 as (t1 & T1 & P1).
    exists t1. split; [exact T1|].
    destruct P1 as [-> | (a & Ha & ->)]; simpl.
    + split; [by eexists|]. split; [constructor|]. split; discriminate.
    + split; [by eexists|]. split; [constructor|]. split; discriminate.
  - apply create_publishes in H1 as (t1 & T1 & P1).
    apply create_publishes in H2 as (t2 & T2 & P2). globals_red.
    exists (t2 ++ t1). split; [rewrite T2, T1, app_assoc; reflexivity|].
    rewrite publishes_app, P1.
    destruct P2 as [-> | (a & Ha & ->)]; simpl.
    + split; [by eexists|]. split; [constructor|]. split; discriminate.
    + split; [by eexists|]. split; [repeat constructor|]. split; discriminate.
  - apply create_publishes in H1 as (t1 & T1 & P1).
    apply create_publishes in H2 as (t2 & T2 & P2).
    apply create_publishes in H3 as (t3 & T3 & P3).
    apply put_publishes in Hput as (t4 & T4 & P4). globals_red.
    exists (t4 ++ t3 ++ t2 ++ t1).
    split; [rewrite T4, T3, T2, T1, <- !app_assoc; reflexivity|].
    rewrite !publishes_app, P4, P2, P1.
    destruct P3 as [-> | (a & Ha & ->)]; simpl.
    + split; [by eexists|]. split; [repeat constructor|]. split; discriminate.
    + split; [by eexists|]. split; [repeat constructor|].
      split; [discriminate|]. intros [= ->]. contradiction.
  - apply create_publishes in H1 as (t1 & T1 & P1).
    apply create_publishes in H2 as (t2 & T2 & P2).
    apply create_publishes in H3 as (t3 & T3 & P3). globals_red.
    exists (t3 ++ t2 ++ t1).
    split; [rewrite T3, T2, T1, <- !app_assoc; reflexivity|].
    rewrite !publishes_app, P3, P2, P1. simpl.
    split; [by eexists []|]. split; [repeat constructor|]. split; reflexivity.
Qed.

Lemma bootstrap_publish_order_witness :
  btrfs_static_init_sysfs (refusing "health") registered
    = Some (- EINVAL, after_health_refused)
  ∧ ∃ tr, trace after_health_refused = tr ++ trace registered
          ∧ rev (publishes tr).*1 `prefix_of` ["devices"; "health"; "info"]
          ∧ publishes tr = [("health", -17); ("devices", 0)].
Proof.
  assert (Hrun : btrfs_static_init_sysfs (refusing "health") registered
                 = Some (- EINVAL, after_health_refused)) by (vm_compute; reflexivity).
  destruct (bootstrap_publish_order _ _ _ _ Hrun) as (tr & Htr & Hpre & _).
  split; [exact Hrun|]. exists tr. split; [exact Htr|]. split; [exact Hpre|].
  change (trace registered) with (@nil event) in Htr. rewrite app_nil_r in Htr.
  rewrite <- Htr. vm_compute. reflexivity.
Defined.

(** ** Devices *)

(** X7: adding a device and killing it is a round trip that frees the
    caller's block.  For a block [p] of the caller and [btrfs_devices] null or
    allocated, [btrfs_create_device] returns 0 whether or not the renderer
    accepted the node, and [btrfs_kill_device] on [p] is then accepted and
    returns 0: the release callback runs once on [p] and frees the block
    itself; no other block is allocated or freed and the static pointers are
    as before. *)
Theorem device_round_trip (E : env) (p : kptr) (o : btrfs_kobject) (label : string)
    (s : sys) :
  heap (mem s) !! p = Some o →
  parent_ok (btrfs_devices (mem s)) (mem s) →
  ∃ s1 s2,
    btrfs_create_device E (Some p) label s = Some (0, s1)
    ∧ btrfs_kill_device (Some p) s1 = Some (0, s2)
    ∧ heap (mem s2) !! p = None
    ∧ blocks s2 = blocks s ∖ {[p]}
    ∧ releases p (trace s2) = S (releases p (trace s))
    ∧ same_globals s s2.
Proof.
  intros Hp Hd.
  set (t := btrfs_ktype_device). set (par := btrfs_devices (mem s)).
  set (m2 := linked p label t par o (mem s)).
  set (a := sysfs_create_dir E m2 p).
  assert (Hrun : ∃ s1, btrfs_create_device E (Some p) label s = Some (0, s1)
            ∧ ∃ b, trace s1 = EvAdd p label a :: trace s
                   ∧ heap (mem s1) !! p
                     = Some (with_state_in_sysfs b (init_kobj label t par o))
                   ∧ dom (heap (mem s1)) = dom (heap (mem s))
                   ∧ same_globals s s1).
  { unfold btrfs_create_device. rewrite bind_run, get_mem_run, bind_run.
    rewrite kobject_init_and_add_eq, Hp, (check_live_eq _ _ Hd). cbv zeta.
    fold par t m2 a.
    assert (Hdom : dom (heap m2) = dom (heap (mem s))).
    { unfold m2. rewrite blocks_linked. apply (anti_symm (⊆)); intros x;
        rewrite elem_of_union, elem_of_singleton; [|tauto].
      intros [-> | Hx]; [apply elem_of_dom; eauto | exact Hx]. }
    case_bool_decide as Ha.
    - eexists. split; [reflexivity|]. exists true. cbn [mem trace].
      split; [rewrite Ha; reflexivity|]. split; [apply published_lookup|].
      split; [|apply published_globals].
      unfold published. fold m2. fields. rewrite dom_insert_L, Hdom.
      apply (anti_symm (⊆)); intros x; rewrite elem_of_union, elem_of_singleton;
        [|tauto].
      intros [-> | Hx]; [apply elem_of_dom; eauto | exact Hx].
    - eexists. split; [reflexivity|]. exists false. cbn [mem trace].
      split; [reflexivity|]. split; [unfold m2; rewrite heap_linked; apply lookup_insert_eq|].
      split; [exact Hdom|apply linked_globals]. }
  destruct Hrun as (s1 & Hrun & b & T1 & L1 & D1 & G1).
  exists s1. unfold btrfs_kill_device.
  rewrite bind_run, kobject_put_eq, L1.
  change (k_kref (kobj (with_state_in_sysfs b (init_kobj label t par o)))) with 1.
  rewrite bool_decide_eq_false_2 by lia. rewrite bool_decide_eq_true_2 by lia.
  rewrite kobject_cleanup_eq. cbv zeta.
  change (k_ktype (kobj (with_state_in_sysfs b (init_kobj label t par o))))
    with (KtLive t).
  eexists. split; [exact Hrun|]. split; [reflexivity|]. cbn [mem trace].
  split; [apply torn_down_lookup|]. split; [|split].
  - unfold blocks. cbn [mem]. rewrite blocks_torn_down, D1. reflexivity.
  - rewrite releases_cons, bool_decide_eq_true_2 by reflexivity.
    rewrite releases_app_del, T1, releases_cons.
    rewrite bool_decide_eq_false_2 by discriminate. reflexivity.
  - unfold same_globals in *. cbn [mem].
    destruct (torn_down_globals p (with_state_in_sysfs b (init_kobj label t par o))
                (mem s1)) as (-> & -> & ->). exact G1.
Qed.

Lemma device_round_trip_witness :
  btrfs_create_device (refusing "sda") (Some 4%positive) "sda" with_block
    = Some (0, with_unpublished_sda)
  ∧ btrfs_kill_device (Some 4%positive) with_unpublished_sda
    = Some (0, with_sda_killed)
  ∧ heap (mem with_sda_killed) !! 4%positive = None.
Proof.
  assert (Hp : heap (mem with_block) !! 4%positive = Some zeroed)
    by (vm_compute; reflexivity).
  destruct (device_round_trip (refusing "sda") 4%positive zeroed "sda" with_block Hp)
    as (s1 & s2 & H1 & H2 & Hgone & _).
  - intros q Hq. vm_compute in Hq. injection Hq as <-. vm_compute. eauto.
  - pose proof (state_after_run _ _ _ H1) as Hs1.
    change (state_after _) with with_unpublished_sda in Hs1. subst s1.
    pose proof (state_after_run _ _ _ H2) as Hs2.
    change (state_after _) with with_sda_killed in Hs2. subst s2.
    split; [exact H1|]. split; [exact H2|exact Hgone].
Defined.

(** ** The values [btrfs_init_sysfs] returns *)

(** X8: [btrfs_init_sysfs] returns only 0, [-EINVAL] or [-ENOMEM], and
    [-ENOMEM] exactly when the kset could not be created.  In that case it
    does return, and it has done nothing but set [btrfs_kset] to null: no
    block is allocated, no request is made and the bootstrap is not run. *)
Theorem init_return_values (E : env) (s : sys) :
  (kset_create_fails E (mem s) = true →
   btrfs_init_sysfs E s = Some (- ENOMEM, set_global (set_btrfs_kset None) s))
  ∧ (∀ r s', btrfs_init_sysfs E s = Some (r, s') →
       (r = 0 ∨ r = - EINVAL ∨ r = - ENOMEM)
       ∧ (r = - ENOMEM ↔ kset_create_fails E (mem s) = true)).
Proof.
  destruct (kset_create_fails E (mem s)) eqn:Hk.
  - assert (Heq : btrfs_init_sysfs E s
      = Some (- ENOMEM, set_global (set_btrfs_kset None) s)).
    { unfold btrfs_init_sysfs, kset_create_and_add. mred. rewrite Hk. reflexivity. }
    split; [intros _; exact Heq|].
    intros r s'. rewrite Heq. intros [= <- _]. split; [auto|]. split; reflexivity.
  - assert (Heq : btrfs_init_sysfs E s
      = btrfs_static_init_sysfs E (Sys (set_btrfs_kset (Some []) (mem s)) (trace s))).
    { unfold btrfs_init_sysfs, kset_create_and_add. mred. rewrite Hk. reflexivity. }
    split; [discriminate|].
    intros r s' Hrun. rewrite Heq in Hrun.
    apply static_init_keeps_kset in Hrun as [_ Hr];
      [|unfold kset_registered; cbn; eauto].
    split; [tauto|]. split; [|discriminate].
    intros ->. destruct Hr as [Hr | Hr]; unfold ENOMEM, EINVAL in Hr; lia.
Qed.

Lemma init_return_values_witness :
  btrfs_init_sysfs kset_refusing boot
    = Some (- ENOMEM, set_global (set_btrfs_kset None) boot)
  ∧ ((- EINVAL = - ENOMEM) ↔ kset_create_fails (refusing "health") (mem boot) = true).
Proof.
  split.
  - apply (proj1 (init_return_values kset_refusing boot)). reflexivity.
  - apply (proj2 (init_return_values (refusing "health") boot)
             (- EINVAL) after_init_health_refused).
    vm_compute. reflexivity.
Defined.

(** ** The declared attributes *)

(** X9: every attribute of the four declared types is inert.  Each is declared
    with mode 0444 and null callbacks, so on any node, in any state, a read
    and a write of it both fail with [-EIO] and change nothing. *)
Theorem declared_attributes_inert (E : env) (t : kobj_type)
    (a : btrfs_kobject_attr) (kobj : kptr) (buf : string) (len : Z) (s : sys) :
  t ∈ declared_ktypes → a ∈ default_attrs t →
  attr_mode (attr a) = S_0444
  ∧ btrfs_kobject_attr_show E kobj a buf s = Some ((- EIO, buf), s)
  ∧ btrfs_kobject_attr_store E kobj a buf len s = Some (- EIO, s).
Proof.
  intros Ht Ha.
  assert (Hnull : attr_mode (attr a) = S_0444 ∧ show a = None ∧ store a = None).
  { unfold declared_ktypes in Ht.
    repeat (apply elem_of_cons in Ht as [-> | Ht]);
      try (apply elem_of_nil in Ht; contradiction);
      cbn in Ha; apply list_elem_of_singleton in Ha as ->; auto. }
  destruct Hnull as (Hm & Hsh & Hst).
  split; [exact Hm|]. rewrite show_dispatch, store_dispatch, Hsh, Hst. auto.
Qed.

Lemma declared_attributes_inert_witness :
  btrfs_kobject_attr_show (refusing "") 3%positive btrfs_attr_num_devices "" with_roots
    = Some ((-5, ""), with_roots)
  ∧ btrfs_kobject_attr_store (refusing "") 3%positive btrfs_attr_num_devices "7" 1
      with_roots = Some (-5, with_roots).
Proof.
  destruct (declared_attributes_inert (refusing "") btrfs_ktype_info
              btrfs_attr_num_devices 3%positive "" 1 with_roots) as (_ & Hr & _).
  { apply list_elem_of_here. }
  { apply list_elem_of_here. }
  destruct (declared_attributes_inert (refusing "") btrfs_ktype_info
              btrfs_attr_num_devices 3%positive "7" 1 with_roots) as (_ & _ & Hw).
  { apply list_elem_of_here. }
  { apply list_elem_of_here. }
  split; [exact Hr|exact Hw].
Defined.

(** ** A bootstrap that fails at once *)

Lemma put_same_globals (k : option kptr) (s s' : sys) :
  kobject_put k s = Some (tt, s') → same_globals s s'.
Proof.
  destruct k as [p|]; [|intros [= <-]; repeat split].
  rewrite kobject_put_eq. destruct (heap (mem s) !! p) as [o|]; [|discriminate].
  case_bool_decide; [discriminate|]. case_bool_decide.
  - rewrite kobject_cleanup_eq. cbv zeta.
    destruct (k_ktype (kobj o)); [| |discriminate]; intros [= <-];
      unfold same_globals; cbn [mem];
      [apply unlinked_globals | apply torn_down_globals].
  - intros [= <-]. repeat split.
Qed.

(** X10: when the first creation fails the bootstrap undoes nothing because
    there is nothing to undo.  A bootstrap that ends with [btrfs_devices] null
    has returned [-EINVAL], has left [btrfs_health] and [btrfs_info] as they
    were, has made at most one request, and has left the allocated blocks the
    same as before, each with its count and type. *)
Theorem bootstrap_first_failure (E : env) (s : sys) (r : Z) (s' : sys) :
  btrfs_static_init_sysfs E s = Some (r, s') →
  btrfs_devices (mem s') = None →
  r = - EINVAL
  ∧ btrfs_health (mem s') = btrfs_health (mem s)
  ∧ btrfs_info (mem s') = btrfs_info (mem s)
  ∧ blocks s' = blocks s
  ∧ (∀ q o, heap (mem s) !! q = Some o →
       ∃ o', heap (mem s') !! q = Some o'
             ∧ k_kref (kobj o') = k_kref (kobj o)
             ∧ k_ktype (kobj o') = k_ktype (kobj o))
  ∧ (∃ tr, trace s' = tr ++ trace s ∧ (length (publishes tr) ≤ 1)%nat).
Proof.
  intros Hrun Hd.
  apply static_init_cases in Hrun
    as [(s1 & H1 & -> & ->) | [(d & s1 & s2 & H1 & H2 & _ & ->)
       | [(d & s1 & h & s2 & s3 & H1 & H2 & H3 & Hput & _)
       | (d & s1 & h & s2 & i & s3 & H1 & H2 & H3 & _ & ->)]]].
  - pose proof (create_root_globals _ _ _ _ _ _ H1) as (_ & Gh & Gi).
    pose proof (create_publishes _ _ _ _ _ _ _ H1) as (tr & Htr & Hp).
    apply create_failure_keeps in H1 as (Hdom & _ & Hkeep). globals_red.
    split; [reflexivity|]. split; [exact Gh|]. split; [exact Gi|].
    split; [exact Hdom|]. split.
    + intros q o Ho. destruct (Hkeep q o Ho) as (_ & o' & Ho' & Hk & Ht & _). eauto.
    + exists tr. split; [exact Htr|].
      destruct Hp as [-> | (a & _ & ->)]; simpl; lia.
  - exfalso. apply create_root_globals in H2 as (Gd & _). globals_red. congruence.
  - exfalso. apply create_root_globals in H2 as (Gd2 & _).
    apply create_root_globals in H3 as (Gd3 & _).
    apply put_same_globals in Hput as (Gd4 & _). globals_red. congruence.
  - exfalso. apply create_root_globals in H2 as (Gd2 & _).
    apply create_root_globals in H3 as (Gd3 & _). globals_red. congruence.
Qed.

Lemma bootstrap_first_failure_witness :
  btrfs_static_init_sysfs (refusing "devices") registered
    = Some (- EINVAL, state_after (btrfs_static_init_sysfs (refusing "devices") registered))
  ∧ blocks (state_after (btrfs_static_init_sysfs (refusing "devices") registered))
    = blocks registered.
Proof.
  assert (Hrun : btrfs_static_init_sysfs (refusing "devices") registered
            = Some (- EINVAL,
                    state_after (btrfs_static_init_sysfs (refusing "devices") registered)))
    by (vm_compute; reflexivity).
  destruct (bootstrap_first_failure _ _ _ _ Hrun) as (_ & _ & _ & Hb & _).
  - vm_compute. reflexivity.
  - split; [exact Hrun|exact Hb].
Defined.
